(** * Kache: a get-or-compute result cache

    Shallow embedding of [src/kache/__init__.py] (the [cache] decorator and
    the closure [decorated] it returns) and the properties of its key
    derivation, its get-or-compute protocol, its backend life cycle and its
    hit/miss accounting. *)

From Stdlib Require Import ZArith String Ascii List Sorted Permutation DecimalString.
From stdpp Require Import gmap strings list sorting.

Open Scope Z_scope.
Open Scope string_scope.

(** ** Results of Python expressions

    A Python expression either yields a value or raises. *)

Inductive outcome (X A : Type) : Type :=
| Ret (a : A)
| Raise (x : X).

Arguments Ret {X A} a.
Arguments Raise {X A} x.

(** ** Python strings *)

Module PyStr.

(** [str.__lt__]: lexicographic comparison of code points.  Strings are
    kept as UTF-8 bytes, whose lexicographic order is that of the code
    points. *)
Definition lt (a b : string) : bool := String.ltb a b.

(** [repr] of a [str] that needs no escape, as every parameter name (a
    Python identifier) is. *)
Definition repr (s : string) : string := ("'" +:+ s) +:+ "'".

(** [sep.join(l)] *)
Fixpoint join (sep : string) (l : list string) : string :=
  match l with
  | [] => ""
  | [x] => x
  | x :: l' => (x +:+ sep) +:+ join sep l'
  end.

(** [c in s], for a character [c] *)
Fixpoint contains_char (c : ascii) (s : string) : bool :=
  match s with
  | EmptyString => false
  | String c' s' => if Ascii.eqb c' c then true else contains_char c s'
  end.

(** [s.find(c)], with [len(s)] where Python gives [-1] *)
Fixpoint find_char (c : ascii) (s : string) : nat :=
  match s with
  | EmptyString => 0
  | String c' s' => if Ascii.eqb c' c then 0 else S (find_char c s')
  end.

(** [k.startswith(prefix)] *)
Definition startswith (k prefix : string) : bool := String.prefix prefix k.

End PyStr.

(** ** Key derivation *)

Section KeyDeriver.

(** Python values, and [repr] on them. *)
Context {V : Type} (repr : V -> string).
(** Exception objects. *)
Context {X : Type}.

(** The resolved parameter mapping [params = dict(bound.arguments)]: a
    dict, that is, its items in insertion order; the names of a dict are
    pairwise distinct. *)
Definition params : Type := list (string * V).

Definition items (p : params) : list (string * V) := p.

Definition names (p : params) : list string := p.*1.

(** [a < b] on the items of a dict.  Tuples compare by their first
    differing component; two items of one dict never have the same name,
    so the names decide. *)
Definition item_lt (a b : string * V) : bool := PyStr.lt a.1 b.1.

(** [sorted]: a stable sort that only uses [<].  [insort x l] puts [x],
    which came before the elements of [l], into the sorted [l] after the
    elements that are smaller than [x]. *)
Fixpoint insort (x : string * V) (l : list (string * V)) : list (string * V) :=
  match l with
  | [] => [x]
  | y :: l' => if item_lt y x then y :: insort x l' else x :: y :: l'
  end.

Fixpoint sorted (l : list (string * V)) : list (string * V) :=
  match l with
  | [] => []
  | x :: l' => insort x (sorted l')
  end.

(** The order in which [sorted] leaves the items of a dict. *)
Definition item_le (a b : string * V) : Prop := String.le a.1 b.1.

(** [repr] of a tuple [(name, value)] *)
Definition repr_item (a : string * V) : string :=
  ((("(" +:+ PyStr.repr a.1) +:+ ", ") +:+ repr a.2) +:+ ")".

(** The items as [str] shows them: the name, and the [repr] of the value. *)
Definition repr_items (p : params) : list (string * string) :=
  map (fun a => (a.1, repr a.2)) p.

(** [str] of a list of items *)
Definition str_list (l : list (string * V)) : string :=
  ("[" +:+ PyStr.join ", " (map repr_item l)) +:+ "]".

(** A hash function: it yields a string or raises. *)
Definition hash_fn : Type := params -> outcome X string.

(** The default of the parameter [hash] (line 7):
    [lambda params: str(sorted(params.items()))] *)
Definition default_hash : hash_fn :=
  fun p => Ret (str_list (sorted (items p))).

(** What the caller of [cache] passes as [hash]. *)
Inductive hash_arg : Type :=
| HashOmitted
| HashNone
| HashCallable (h : hash_fn).

(** Lines 7 and 32-33: the hash function that [decorated] closes over. *)
Definition cache_hash (a : hash_arg) : hash_fn :=
  match a with
  | HashOmitted => default_hash
  | HashNone => fun _ => Ret ""
  | HashCallable h => h
  end.

(** Line 51: [hash_ = orig_func.__name__ + "__" + hash(params)] *)
Definition derive (name : string) (hash : hash_fn) (p : params) : outcome X string :=
  match hash p with
  | Ret h => Ret ((name +:+ "__") +:+ h)
  | Raise x => Raise x
  end.

End KeyDeriver.

(** ** The cache controller and its storage backends *)

(** Life cycle of the handles of a shelve database, as a backend that
    records its open and close calls would see it. *)
Inductive event : Type :=
| EvOpen (path : string)
| EvClose (path : string).

(** The object bound to [_cache] (line 54): the dict [mem_cache] or a
    [shelve.Shelf] opened on the path [db]. *)
Inductive cache_obj : Type :=
| MemCache
| Shelf (path : string).

(** A log in which every handle that was opened is closed before the next
    one is opened, and none is left open. *)
Fixpoint balanced (log : list event) : bool :=
  match log with
  | [] => true
  | EvOpen p :: EvClose q :: log' => String.eqb p q && balanced log'
  | _ => false
  end.

Section Controller.

(** Python values, exception objects, pickled values, and the part of
    the world outside the cache that the wrapped function may read and
    write. *)
Context {V X P W : Type}.

(** [repr] on values, for the default hash. *)
Context (repr : V -> string).

(** [pickle.dumps] and [pickle.loads], through which a shelf stores and
    reads values; both may raise. *)
Context (dumps : V -> outcome X P) (loads : P -> outcome X V).

(** [shelve.open(path)] raises when the store at [path] cannot be opened. *)
Context (shelve_open_error : string -> option X).

(** The function being decorated: its [__name__], how its signature
    binds a call [( *args, **kwargs)] and applies the defaults (lines
    46-49), and what [orig_func( **params)] does. *)
Record pyfunc : Type := PyFunc {
  fn_name : string;
  fn_bind : list V -> list (string * V) -> outcome X (@params V);
  fn_call : @params V -> W -> outcome X V * W
}.

(** An exception leaving [decorated], with the line that raised it; the
    exception object is passed on as it is. *)
Inductive error : Type :=
| BindError (x : X)          (* line 47, sig.bind *)
| HashError (x : X)          (* line 51, hash(params) *)
| OpenError (x : X)          (* line 54, shelve.open(db) *)
| ComputationError (x : X)   (* line 60, orig_func( **params) *)
| StoreError (x : X)         (* line 60, _cache[hash_] = ... *)
| MissingEntry (key : string) (* line 62, KeyError of _cache[hash_] *)
| LoadError (x : X).         (* line 62, unpickling _cache[hash_] *)

(** What a call of [decorated] reads and writes: the dicts [stats],
    [info] and [mem_cache] of the closure (lines 40-42), the shelve
    database at [db] with the life cycle of its handles, and the world. *)
Record state : Type := State {
  stats_cached : Z;
  stats_computed : Z;
  info_last_hash : option string;
  mem_cache : gmap string V;
  shelf : gmap string P;
  shelf_log : list event;
  world : W
}.

Definition set_stats_cached (z : Z) (s : state) : state :=
  State z (stats_computed s) (info_last_hash s) (mem_cache s) (shelf s) (shelf_log s) (world s).
Definition set_stats_computed (z : Z) (s : state) : state :=
  State (stats_cached s) z (info_last_hash s) (mem_cache s) (shelf s) (shelf_log s) (world s).
Definition set_info_last_hash (h : option string) (s : state) : state :=
  State (stats_cached s) (stats_computed s) h (mem_cache s) (shelf s) (shelf_log s) (world s).
Definition set_mem_cache (m : gmap string V) (s : state) : state :=
  State (stats_cached s) (stats_computed s) (info_last_hash s) m (shelf s) (shelf_log s) (world s).
Definition set_shelf (m : gmap string P) (s : state) : state :=
  State (stats_cached s) (stats_computed s) (info_last_hash s) (mem_cache s) m (shelf_log s) (world s).
Definition set_shelf_log (l : list event) (s : state) : state :=
  State (stats_cached s) (stats_computed s) (info_last_hash s) (mem_cache s) (shelf s) l (world s).
Definition set_world (w : W) (s : state) : state :=
  State (stats_cached s) (stats_computed s) (info_last_hash s) (mem_cache s) (shelf s) (shelf_log s) w.

(** Lines 40-42: the state of a freshly decorated function. *)
Definition fresh (db : gmap string P) (log : list event) (w : W) : state :=
  State 0 0 None ∅ db log w.

(** *** Statements: state passing, with exceptions *)

Definition M (A : Type) : Type := state -> outcome error A * state.

Definition ret {A} (a : A) : M A := fun s => (Ret a, s).
Definition raise {A} (e : error) : M A := fun s => (Raise e, s).
Definition bind {A B} (m : M A) (k : A -> M B) : M B :=
  fun s =>
    match m s with
    | (Ret a, s1) => k a s1
    | (Raise e, s1) => (Raise e, s1)
    end.
Definition modify (f : state -> state) : M unit := fun s => (Ret tt, f s).

(** An expression that raises does so at the line [at_line]. *)
Definition lift {A} (at_line : X -> error) (o : outcome X A) : M A :=
  match o with
  | Ret a => ret a
  | Raise x => raise (at_line x)
  end.

(** [try: body finally: fin]: [fin] runs on every way out of [body]; an
    exception of [fin] replaces the pending one. *)
Definition try_finally {A} (body : M A) (fin : M unit) : M A :=
  fun s =>
    match body s with
    | (r, s1) =>
        match fin s1 with
        | (Ret _, s2) => (r, s2)
        | (Raise e, s2) => (Raise e, s2)
        end
    end.

#[local] Instance M_ret : MRet M := @ret.
#[local] Instance M_bind : MBind M := fun A B k m => bind m k.

(** *** The two backends *)

(** Line 54: [shelve.open(db) if db is not None else mem_cache] *)
Definition open_cache (db : option string) : M cache_obj :=
  match db with
  | None => mret MemCache
  | Some path =>
      match shelve_open_error path with
      | Some x => raise (OpenError x)
      | None =>
          modify (fun s => set_shelf_log (shelf_log s ++ [EvOpen path]) s) ;;
          mret (Shelf path)
      end
  end.

(** Whether the backend holds an entry for [key]. *)
Definition has_key (c : cache_obj) (key : string) (s : state) : bool :=
  match c with
  | MemCache => bool_decide (is_Some (mem_cache s !! key))
  | Shelf _ => bool_decide (is_Some (shelf s !! key))
  end.

(** [key in _cache] *)
Definition cache_contains (c : cache_obj) (key : string) : M bool :=
  fun s => (Ret (has_key c key s), s).

(** [_cache[key] = v]; a shelf pickles [v]. *)
Definition cache_setitem (c : cache_obj) (key : string) (v : V) : M unit :=
  match c with
  | MemCache => modify (fun s => set_mem_cache (<[key := v]> (mem_cache s)) s)
  | Shelf _ =>
      p ← lift StoreError (dumps v) ;
      modify (fun s => set_shelf (<[key := p]> (shelf s)) s)
  end.

(** [_cache[key]]; a [KeyError] when the key is missing; a shelf
    unpickles what it stored. *)
Definition cache_getitem (c : cache_obj) (key : string) : M V :=
  fun s =>
    match c with
    | MemCache =>
        match mem_cache s !! key with
        | Some v => (Ret v, s)
        | None => (Raise (MissingEntry key), s)
        end
    | Shelf _ =>
        match shelf s !! key with
        | Some p => lift LoadError (loads p) s
        | None => (Raise (MissingEntry key), s)
        end
    end.

(** Lines 64-65: [if hasattr(_cache, "close"): _cache.close()]; a dict
    has no [close]. *)
Definition close_cache (c : cache_obj) : M unit :=
  match c with
  | MemCache => mret tt
  | Shelf path => modify (fun s => set_shelf_log (shelf_log s ++ [EvClose path]) s)
  end.

(** The backend that [db] selects, whether it can be opened, and the
    life cycle of the handle of one call. *)
Definition cache_of (db : option string) : cache_obj :=
  match db with
  | None => MemCache
  | Some path => Shelf path
  end.

Definition db_opens (db : option string) : Prop :=
  match db with
  | None => True
  | Some path => shelve_open_error path = None
  end.

Definition handle_events (db : option string) : list event :=
  match db with
  | None => []
  | Some path => [EvOpen path; EvClose path]
  end.

(** *** [decorated] *)

Section Decorated.

(** What the closure captures: [orig_func], [db] and [hash] (after
    lines 32-33). *)
Variable orig_func : pyfunc.
Variable db : option string.
Variable hash : @hash_fn V X.

(** Line 60, right-hand side: [orig_func( **params)] *)
Definition call_orig_func (p : params) : M V :=
  fun s =>
    match fn_call orig_func p (world s) with
    | (Ret v, w) => (Ret v, set_world w s)
    | (Raise x, w) => (Raise (ComputationError x), set_world w s)
    end.

(** Lines 56-60: the body of the [try] up to the final read. *)
Definition lookup_or_compute (_cache : cache_obj) (hash_ : string) (p : params) : M unit :=
  hit ← cache_contains _cache hash_ ;
  if hit : bool then
    modify (fun s => set_stats_cached (stats_cached s + 1) s)
  else
    modify (fun s => set_stats_computed (stats_computed s + 1) s) ;;
    v ← call_orig_func p ;
    cache_setitem _cache hash_ v.

(** Lines 60 and 62 on a miss: [_cache[hash_] = v], then [_cache[hash_]]. *)
Definition store_then_read (_cache : cache_obj) (hash_ : string) (v : V) : M V :=
  cache_setitem _cache hash_ v ;;
  cache_getitem _cache hash_.

(** Lines 45-66. *)
Definition decorated (args : list V) (kwargs : list (string * V)) : M V :=
  p ← lift BindError (fn_bind orig_func args kwargs) ;
  hash_ ← lift HashError (derive (fn_name orig_func) hash p) ;
  modify (set_info_last_hash (Some hash_)) ;;
  _cache ← open_cache db ;
  try_finally
    (lookup_or_compute _cache hash_ p ;;
     cache_getitem _cache hash_)
    (close_cache _cache).

(** A sequence of calls, one after the other; what they return or
    raise is dropped. *)
Fixpoint run_calls (calls : list (list V * list (string * V))) (s : state) : state :=
  match calls with
  | [] => s
  | (args, kwargs) :: calls' => run_calls calls' (decorated args kwargs s).2
  end.

End Decorated.

(** [cache(orig_func, db, hash)], lines 7-71: the decorated function.  The
    form [cache(db=..., hash=...)(orig_func)] of lines 35-38 passes the
    same [db] and the same resolved [hash] to the same code. *)
Definition cache (orig_func : pyfunc) (db : option string) (h : @hash_arg V X) :
    list V -> list (string * V) -> M V :=
  decorated orig_func db (cache_hash repr h).

(** What [cache(...)] returns: the decorator
    [functools.partial(cache, db=db, hash=hash)] of lines 35-38 when
    [orig_func] is [None], and else the function [decorated]. *)
Inductive cache_result : Type :=
| Partial (db : option string) (hash : @hash_arg V X)
| Decorated (call : list V -> list (string * V) -> M V).

(** Lines 32-71, [orig_func] being optional.  The hash that the partial
    application holds is the one of lines 32-33, a callable. *)
Definition cache_or_partial (orig_func : option pyfunc) (db : option string)
    (h : @hash_arg V X) : cache_result :=
  match orig_func with
  | None => Partial db (HashCallable (cache_hash repr h))
  | Some f => Decorated (cache f db h)
  end.

(** [deco(f)], for the decorator [deco] that [cache] returned: the partial
    application calls [cache(f, db=db, hash=hash)].  (Calling a decorated
    function is a call of [decorated]; it is not a use as a decorator.) *)
Definition apply_decorator (deco : cache_result) (f : pyfunc) : option cache_result :=
  match deco with
  | Partial db h => Some (cache_or_partial (Some f) db h)
  | Decorated _ => None
  end.

(** [stats["cached"] + stats["computed"]] *)
Definition stats_total (s : state) : Z := stats_cached s + stats_computed s.

(** A call as [run_calls] takes it binds and derives a key. *)
Definition derives_key (orig_func : pyfunc) (hash : @hash_fn V X)
    (call : list V * list (string * V)) : Prop :=
  exists p key,
    fn_bind orig_func call.1 call.2 = Ret p
    /\ derive (fn_name orig_func) hash p = Ret key.

End Controller.

(** ** A concrete instance: integers, jobs and functions

    Enough of Python to run the docstring of [cache] and the scenarios of
    the properties below. *)

Module Example.

#[warnings="-register-all"]
Inductive pyval : Type :=
| PyInt (z : Z)
(** an instance of a class [Job] whose [__getstate__] leaves the
    attribute [scratch] out of the pickle *)
| PyJob (data : Z) (scratch : option Z)
(** a function object; functions defined by [lambda] cannot be pickled *)
| PyFunction (qualname : string)
(** a dict with [str] keys, its items in insertion order *)
| PyDict (d : list (string * pyval)).

(** Exceptions, by the name of their class. *)
Definition pyexn : Type := string.

#[warnings="-register-all"]
Inductive pickled : Type :=
| PickledInt (z : Z)
| PickledJob (data : Z)
| PickledDict (d : list (string * pickled)).

(** What has been printed so far. *)
Definition pyworld : Type := list string.

Fixpoint py_repr (v : pyval) : string :=
  match v with
  | PyInt z => NilZero.string_of_int (Z.to_int z)
  | PyJob _ _ => "<Job object>"
  | PyFunction q => ("<function " +:+ q) +:+ ">"
  | PyDict d =>
      ("{" +:+ PyStr.join ", "
                 (map (fun kv => (PyStr.repr kv.1 +:+ ": ") +:+ py_repr kv.2) d))
      +:+ "}"
  end.

(** [pickle.dumps]: the first value that cannot be pickled raises. *)
Fixpoint py_dumps (v : pyval) : outcome pyexn pickled :=
  match v with
  | PyInt z => Ret (PickledInt z)
  | PyJob d _ => Ret (PickledJob d)
  | PyFunction _ => Raise "PicklingError"
  | PyDict d =>
      match
        fold_right
          (fun kv acc =>
             match py_dumps kv.2, acc with
             | Ret pk, Ret l => Ret ((kv.1, pk) :: l)
             | Raise x, _ => Raise x
             | Ret _, Raise x => Raise x
             end)
          (Ret []) d
      with
      | Ret l => Ret (PickledDict l)
      | Raise x => Raise x
      end
  end.

Fixpoint py_loads_val (p : pickled) : pyval :=
  match p with
  | PickledInt z => PyInt z
  | PickledJob d => PyJob d None
  | PickledDict d => PyDict (map (fun kv => (kv.1, py_loads_val kv.2)) d)
  end.

Definition py_loads (p : pickled) : outcome pyexn pyval := Ret (py_loads_val p).

(** Every path can be opened, except the ones under [/proc/]. *)
Definition py_open_error (path : string) : option pyexn :=
  if String.prefix "/proc/" path then Some "dbm.error" else None.

(** [kwargs.get(name)] *)
Fixpoint kw_get (name : string) (kwargs : list (string * pyval)) : option pyval :=
  match kwargs with
  | [] => None
  | (n, v) :: kwargs' => if String.eqb n name then Some v else kw_get name kwargs'
  end.

Fixpoint kw_remove (name : string) (kwargs : list (string * pyval)) : list (string * pyval) :=
  match kwargs with
  | [] => []
  | (n, v) :: kwargs' =>
      if String.eqb n name then kw_remove name kwargs' else (n, v) :: kw_remove name kwargs'
  end.

(** [sig.bind( *args, **kwargs)] followed by [apply_defaults()], for a
    signature of positional-or-keyword parameters [(name, default)]: the
    arguments come out in the order of the signature. *)
Fixpoint sig_bind (sig : list (string * option pyval))
    (args : list pyval) (kwargs : list (string * pyval)) : outcome pyexn (@params pyval) :=
  match sig with
  | [] =>
      match args, kwargs with
      | [], [] => Ret []
      | _, _ => Raise "TypeError"
      end
  | (n, dflt) :: sig' =>
      match args with
      | a :: args' =>
          match kw_get n kwargs with
          | Some _ => Raise "TypeError"
          | None =>
              match sig_bind sig' args' kwargs with
              | Ret p => Ret ((n, a) :: p)
              | Raise x => Raise x
              end
          end
      | [] =>
          match kw_get n kwargs, dflt with
          | Some v, _ | None, Some v =>
              match sig_bind sig' [] (kw_remove n kwargs) with
              | Ret p => Ret ((n, v) :: p)
              | Raise x => Raise x
              end
          | None, None => Raise "TypeError"
          end
      end
  end.

(** [a == b]: integers by value, dicts by their items whatever the
    order, other objects by identity. *)
Fixpoint py_eq (a b : pyval) : bool :=
  match a, b with
  | PyInt z1, PyInt z2 => Z.eqb z1 z2
  | PyJob d1 s1, PyJob d2 s2 => bool_decide (d1 = d2 /\ s1 = s2)
  | PyFunction q1, PyFunction q2 => String.eqb q1 q2
  | PyDict d1, PyDict d2 =>
      Nat.eqb (length d1) (length d2)
      && forallb
           (fun kv =>
              match kw_get kv.1 d2 with
              | Some v2 => py_eq kv.2 v2
              | None => false
              end)
           d1
  | _, _ => false
  end.

(** [p1 == p2] on resolved parameter mappings: the same names, bound to
    equal values. *)
Definition params_eq (p1 p2 : @params pyval) : bool := py_eq (PyDict p1) (PyDict p2).

(** [x = lambda a, b=2: a*b], the function of the docstring. *)
Definition x : @pyfunc pyval pyexn pyworld :=
  PyFunc "<lambda>"
    (sig_bind [("a", None); ("b", Some (PyInt 2))])
    (fun p w =>
       match kw_get "a" p, kw_get "b" p with
       | Some (PyInt a), Some (PyInt b) => (Ret (PyInt (a * b)), w)
       | _, _ => (Raise "TypeError", w)
       end).

(** [def f(a, b=2): return a*b], the function of the scenario of the
    specification. *)
Definition f : @pyfunc pyval pyexn pyworld :=
  PyFunc "f" (fn_bind x) (fn_call x).

(** [def g(a, b=2): return a*b] *)
Definition g : @pyfunc pyval pyexn pyworld :=
  PyFunc "g" (fn_bind x) (fn_call x).

(** [def inv(a): return 10 // a] *)
Definition inv : @pyfunc pyval pyexn pyworld :=
  PyFunc "inv"
    (sig_bind [("a", None)])
    (fun p w =>
       match kw_get "a" p with
       | Some (PyInt a) =>
           if Z.eqb a 0 then (Raise "ZeroDivisionError", w) else (Ret (PyInt (10 / a)), w)
       | _ => (Raise "TypeError", w)
       end).

(** [def make_job(a): return Job(data=a, scratch=a + 1)] *)
Definition make_job : @pyfunc pyval pyexn pyworld :=
  PyFunc "make_job"
    (sig_bind [("a", None)])
    (fun p w =>
       match kw_get "a" p with
       | Some (PyInt a) => (Ret (PyJob a (Some (a + 1))), w)
       | _ => (Raise "TypeError", w)
       end).

(** [def count( **kw): return len(kw)]; the keyword arguments are bound,
    in the order of the call, to the one parameter [kw]. *)
Definition count : @pyfunc pyval pyexn pyworld :=
  PyFunc "count"
    (fun args kwargs =>
       match args with
       | [] => Ret [("kw", PyDict kwargs)]
       | _ :: _ => Raise "TypeError"
       end)
    (fun p w =>
       match kw_get "kw" p with
       | Some (PyDict d) => (Ret (PyInt (Z.of_nat (length d))), w)
       | _ => (Raise "TypeError", w)
       end).

(** [def make_adder(a): return lambda b: a + b] *)
Definition make_adder : @pyfunc pyval pyexn pyworld :=
  PyFunc "make_adder"
    (sig_bind [("a", None)])
    (fun p w =>
       match kw_get "a" p with
       | Some (PyInt a) => (Ret (PyFunction "make_adder.<locals>.<lambda>"), w)
       | _ => (Raise "TypeError", w)
       end).

(** [def report(a): print("report"); return a + 1] *)
Definition report : @pyfunc pyval pyexn pyworld :=
  PyFunc "report"
    (sig_bind [("a", None)])
    (fun p w =>
       match kw_get "a" p with
       | Some (PyInt a) => (Ret (PyInt (a + 1)), (w ++ ["report"])%list)
       | _ => (Raise "TypeError", (w ++ ["report"])%list)
       end).

(** [hash=lambda params: str(params["a"] % 100)] *)
Definition hash_mod100 : @hash_fn pyval pyexn :=
  fun p =>
    match kw_get "a" p with
    | Some (PyInt a) => Ret (py_repr (PyInt (a mod 100)))
    | Some _ => Raise "TypeError"
    | None => Raise "KeyError"
    end.

(** [pickle.loads] in a process that cannot import the class [Job]. *)
Definition py_loads_no_job (p : pickled) : outcome pyexn pyval :=
  match p with
  | PickledJob _ => Raise "AttributeError"
  | _ => py_loads p
  end.

(** The decorator and the states of this instance. *)
Definition py_cache := @cache pyval pyexn pickled pyworld py_repr py_dumps py_loads py_open_error.
Definition py_hash : @hash_arg pyval pyexn -> @hash_fn pyval pyexn := cache_hash py_repr.
Definition py_decorated := @decorated pyval pyexn pickled pyworld py_dumps py_loads py_open_error.
Definition pystate : Type := @state pyval pickled pyworld.

(** [x = cache(x)], as in the docstring. *)
Definition cached_x := py_cache x None HashOmitted.

(** A freshly decorated function, an empty store, nothing printed. *)
Definition s0 : pystate := fresh ∅ [] [].

(** The observable part of a state: the counters and [last_hash]. *)
Definition stats_info (s : pystate) : Z * Z * option string :=
  (stats_cached s, stats_computed s, info_last_hash s).

End Example.

(** * Properties *)

(** ** Python strings *)

Module PyStrFacts.

Lemma lt_not_le a b : PyStr.lt a b = true <-> ~ String.le b a.
Proof.
  unfold PyStr.lt, String.le, String.ltb, String.leb.
  rewrite (String.compare_antisym a b).
  destruct (String.compare b a); simpl; split; intros H; try done;
    try (exfalso; apply H; exact I); intros []; done.
Qed.

Lemma length_app a b : String.length (a +:+ b) = (String.length a + String.length b)%nat.
Proof. induction a as [|c a IH]; simpl; [done | by rewrite IH]. Qed.

(** Right cancellation of concatenation. *)
Lemma app_inj_r c a b : a +:+ c = b +:+ c -> a = b.
Proof.
  revert b. induction a as [|x a IH]; intros [|y b] H; simpl in *.
  - done.
  - apply (f_equal String.length) in H. simpl in H.
    rewrite !length_app in H. simpl in H. lia.
  - apply (f_equal String.length) in H. simpl in H.
    rewrite !length_app in H. simpl in H. lia.
  - injection H as -> H. f_equal. by apply IH.
Qed.

End PyStrFacts.

(** ** [sorted] sorts, and its result only depends on the set of items *)

Section KeyDeriverFacts.

Context {V : Type}.

#[local] Instance item_le_trans : Transitive (@item_le V).
Proof. intros a b c. unfold item_le. apply transitivity. Qed.

Lemma insort_perm (x : string * V) l : insort x l ≡ₚ x :: l.
Proof.
  induction l as [|y l IH]; simpl; [done|].
  destruct (item_lt y x); [|done].
  rewrite IH. apply Permutation_swap.
Qed.

Lemma sorted_perm (l : list (string * V)) : sorted l ≡ₚ l.
Proof.
  induction l as [|x l IH]; simpl; [done|].
  by rewrite insort_perm, IH.
Qed.

Lemma insort_hdrel (a x : string * V) l :
  item_le a x -> HdRel item_le a l -> HdRel item_le a (insort x l).
Proof.
  intros Hax Hl. destruct l as [|y l]; simpl.
  - by constructor.
  - destruct (item_lt y x); constructor; [by inversion Hl | done].
Qed.

Lemma insort_sorted (x : string * V) l : Sorted item_le l -> Sorted item_le (insort x l).
Proof.
  induction 1 as [|y l Hl IH Hy]; simpl.
  - by repeat constructor.
  - destruct (item_lt y x) eqn:Hlt.
    + constructor; [done|]. apply insort_hdrel; [|done].
      destruct (total String.le y.1 x.1) as [H|H]; [done|].
      apply PyStrFacts.lt_not_le in Hlt. done.
    + constructor; [by constructor|]. constructor.
      destruct (decide (String.le x.1 y.1)) as [H|Hy_x]; [done|].
      exfalso. apply not_true_iff_false in Hlt. apply Hlt.
      apply PyStrFacts.lt_not_le. intros Hxy. apply Hy_x. exact Hxy.
Qed.

Lemma sorted_sorted (l : list (string * V)) : Sorted item_le (sorted l).
Proof.
  induction l as [|x l IH]; simpl; [constructor|]. by apply insort_sorted.
Qed.

(** In a dict, the name determines the item. *)
Lemma dict_item_unique (p : @params V) a b :
  NoDup (names p) -> a ∈ p -> b ∈ p -> a.1 = b.1 -> a = b.
Proof.
  unfold names. induction p as [|c p IH]; intros Hnd Ha Hb Hab.
  - by apply elem_of_nil in Ha.
  - rewrite fmap_cons in Hnd. apply NoDup_cons in Hnd as [Hc Hnd].
    apply elem_of_cons in Ha as [->|Ha]; apply elem_of_cons in Hb as [->|Hb].
    + done.
    + exfalso. apply Hc. rewrite Hab. by apply list_elem_of_fmap_2.
    + exfalso. apply Hc. rewrite <- Hab. by apply list_elem_of_fmap_2.
    + by apply IH.
Qed.

(** Two dicts with the same items hold them in some order. *)
Lemma dict_same_items_perm (p1 p2 : @params V) :
  NoDup (names p1) -> NoDup (names p2) ->
  (forall a, a ∈ p1 <-> a ∈ p2) -> p1 ≡ₚ p2.
Proof.
  intros H1 H2 Hiff. apply NoDup_Permutation; [| |done].
  - by eapply NoDup_fmap_1.
  - by eapply NoDup_fmap_1.
Qed.

Lemma sorted_order_independent (p1 p2 : @params V) :
  NoDup (names p1) -> p1 ≡ₚ p2 -> sorted (items p1) = sorted (items p2).
Proof.
  intros Hnd Hperm. unfold items.
  apply (Sorted_unique_strong item_le).
  - intros a b Ha Hb Hab Hba.
    apply (dict_item_unique p1); [done| | |].
    + by rewrite <- (sorted_perm p1).
    + by rewrite Hperm, <- (sorted_perm p2).
    + unfold item_le in *. by apply (anti_symm String.le).
  - apply sorted_sorted.
  - apply sorted_sorted.
  - by rewrite !sorted_perm.
Qed.

End KeyDeriverFacts.

(** The default hash only sees the names and the [repr] of the values. *)

Section DefaultHashFacts.

Context {V : Type} (repr : V -> string).

Lemma insort_repr_items (x : string * V) l :
  repr_items repr (insort x l) = insort (x.1, repr x.2) (repr_items repr l).
Proof.
  induction l as [|y l IH]; simpl; [done|].
  unfold item_lt; simpl. destruct (PyStr.lt y.1 x.1); simpl; [by rewrite IH | done].
Qed.

Lemma sorted_repr_items (l : list (string * V)) :
  repr_items repr (sorted l) = sorted (repr_items repr l).
Proof.
  induction l as [|x l IH]; simpl; [done|].
  by rewrite insort_repr_items, IH.
Qed.

Lemma str_list_repr_items (l : list (string * V)) :
  str_list repr l = str_list (fun r => r) (repr_items repr l).
Proof.
  unfold str_list, repr_items. do 3 f_equal.
  rewrite map_map. done.
Qed.

Lemma names_repr_items (p : @params V) : names (repr_items repr p) = names p.
Proof. unfold names, repr_items. rewrite <- list_fmap_compose. done. Qed.

Lemma default_hash_repr_items {X} (p1 p2 : @params V) :
  NoDup (names p1) -> NoDup (names p2) ->
  (forall a, a ∈ repr_items repr p1 <-> a ∈ repr_items repr p2) ->
  default_hash repr (X := X) p1 = default_hash repr p2.
Proof.
  intros Hnd1 Hnd2 Hsame. unfold default_hash, items. f_equal.
  rewrite !str_list_repr_items, !sorted_repr_items. f_equal.
  apply (sorted_order_independent (repr_items repr p1) (repr_items repr p2)).
  - by rewrite names_repr_items.
  - apply dict_same_items_perm; by rewrite ?names_repr_items.
Qed.

End DefaultHashFacts.

(** ** The get-or-compute protocol *)

(** Runs the statements of [decorated] symbolically. *)
Ltac py_unfold :=
  unfold cache, decorated, lookup_or_compute, call_orig_func, open_cache,
    close_cache, cache_contains, cache_setitem, cache_getitem, try_finally,
    has_key, cache_of, db_opens, handle_events, store_then_read,
    lift, modify, mbind, mret, M_bind, M_ret, bind, ret, raise in *.

Ltac unfold_cache := unfold cache in *.

Ltac py_run := py_unfold; simpl in *; repeat (case_match; simpl in *; simplify_eq); simpl in *.

Section ControllerFacts.

Context {V X P W : Type}.
Context (repr : V -> string).
Context (dumps : V -> outcome X P) (loads : P -> outcome X V).
Context (shelve_open_error : string -> option X).

Abbreviation pyfunc := (@pyfunc V X W).
Abbreviation state := (@state V P W).
Abbreviation decorated := (@decorated V X P W dumps loads shelve_open_error).
Abbreviation cache := (@cache V X P W repr dumps loads shelve_open_error).
Abbreviation cache_setitem := (@cache_setitem V X P W dumps).
Abbreviation cache_getitem := (@cache_getitem V X P W loads).
Abbreviation cache_contains := (@cache_contains V X P W).
Abbreviation lookup_or_compute := (@lookup_or_compute V X P W dumps).
Abbreviation cache_hash := (@cache_hash V repr X).
Abbreviation store_then_read := (@store_then_read V X P W dumps loads).
Abbreviation has_key := (@has_key V P W).
Abbreviation db_opens := (@db_opens X shelve_open_error).
Abbreviation run_calls := (@run_calls V X P W dumps loads shelve_open_error).

Implicit Types (orig_func : pyfunc) (db : option string) (hash : @hash_fn V X).
Implicit Types (args : list V) (kwargs : list (string * V)) (p : @params V).
Implicit Types (s : state) (key : string).

(** C2, as the code has it.  Two calls whose resolved parameter
    mappings hold the same names, each bound to values with the same
    [repr] (as the same value has), derive the same key under the default
    hash, however the arguments were passed and in whatever order the
    mappings list them. *)
Theorem default_key_order_independent orig_func args1 kwargs1 args2 kwargs2 p1 p2 :
  fn_bind orig_func args1 kwargs1 = Ret p1 ->
  fn_bind orig_func args2 kwargs2 = Ret p2 ->
  NoDup (names p1) -> NoDup (names p2) ->
  (forall a, a ∈ repr_items repr p1 <-> a ∈ repr_items repr p2) ->
  derive (fn_name orig_func) (cache_hash HashOmitted) p1
  = derive (fn_name orig_func) (cache_hash HashOmitted) p2.
Proof.
  intros _ _ Hnd1 Hnd2 Hsame.
  unfold derive.
  change (cache_hash HashOmitted p1) with (default_hash repr (X := X) p1).
  change (cache_hash HashOmitted p2) with (default_hash repr (X := X) p2).
  by rewrite (default_hash_repr_items repr p1 p2).
Qed.

(** C7.  Under one hash function and for one parameter set, two wrapped
    functions with distinct names derive distinct keys: the key is the
    name, then [__], then the hash. *)
Theorem derive_namespaced (f g : pyfunc) hash p kf kg :
  fn_name f <> fn_name g ->
  derive (fn_name f) hash p = Ret kf ->
  derive (fn_name g) hash p = Ret kg ->
  kf <> kg
  /\ exists h, hash p = Ret h
       /\ kf = (fn_name f +:+ "__") +:+ h /\ kg = (fn_name g +:+ "__") +:+ h.
Proof.
  unfold derive. intros Hne Hf Hg.
  destruct (hash p) as [h|x]; [|done].
  injection Hf as <-. injection Hg as <-. split; [|by exists h].
  intros Heq. apply Hne.
  apply PyStrFacts.app_inj_r in Heq. by apply PyStrFacts.app_inj_r in Heq.
Qed.

(** C8.  When the hash function raises on the resolved parameters, the
    exception reaches the caller and the call changes nothing: not the
    counters, not [last_hash], not the log of the store (it is never
    opened), not an entry. *)
Theorem hash_failure_mutates_nothing orig_func db hash args kwargs p x s :
  fn_bind orig_func args kwargs = Ret p ->
  hash p = Raise x ->
  decorated orig_func db hash args kwargs s = (Raise (HashError x), s).
Proof.
  intros Hb Hh. py_unfold. unfold derive. by rewrite Hb, Hh.
Qed.

(** C3.  On a miss whose computation raises, the exception reaches the
    caller, the handle opened for the call has been closed, and the
    backend holds what it held: no entry is written. *)
Theorem computation_failure_releases_backend orig_func db hash args kwargs p key x w s :
  fn_bind orig_func args kwargs = Ret p ->
  derive (fn_name orig_func) hash p = Ret key ->
  db_opens db ->
  has_key (cache_of db) key s = false ->
  fn_call orig_func p (world s) = (Raise x, w) ->
  exists s',
    decorated orig_func db hash args kwargs s = (Raise (ComputationError x), s')
    /\ shelf_log s' = (shelf_log s ++ handle_events db)%list
    /\ mem_cache s' = mem_cache s
    /\ shelf s' = shelf s.
Proof.
  intros Hb Hd Ho Hmiss Hcall.
  destruct db as [path|]; eexists; py_unfold; simpl in *;
    rewrite Hb, Hd; simpl; rewrite ?Ho; simpl; rewrite Hmiss; simpl;
    rewrite Hcall; simpl.
  - split; [reflexivity|]. simpl. by rewrite <- app_assoc.
  - split; [reflexivity|]. simpl. by rewrite app_nil_r.
Qed.

(** C10.  On a miss whose computation raises, the call has counted
    itself as computed and has overwritten [last_hash] with its key by
    the time the exception reaches the caller; [cached] is unchanged. *)
Theorem failed_computation_is_counted orig_func db hash args kwargs p key x w s :
  fn_bind orig_func args kwargs = Ret p ->
  derive (fn_name orig_func) hash p = Ret key ->
  db_opens db ->
  has_key (cache_of db) key s = false ->
  fn_call orig_func p (world s) = (Raise x, w) ->
  exists s',
    decorated orig_func db hash args kwargs s = (Raise (ComputationError x), s')
    /\ stats_computed s' = stats_computed s + 1
    /\ stats_cached s' = stats_cached s
    /\ info_last_hash s' = Some key.
Proof.
  intros Hb Hd Ho Hmiss Hcall.
  destruct db as [path|]; eexists; py_unfold; simpl in *;
    rewrite Hb, Hd; simpl; rewrite ?Ho; simpl; rewrite Hmiss; simpl;
    rewrite Hcall; simpl; done.
Qed.

(** The key is in the backend once lines 56-60 have run to their end. *)
Lemma lookup_or_compute_has_key orig_func c key p s s1 :
  lookup_or_compute orig_func c key p s = (Ret tt, s1) ->
  has_key c key s1 = true.
Proof.
  intros H. destruct c; py_run;
    rewrite ?lookup_insert_eq; try done; by apply bool_decide_eq_true_2.
Qed.

(** A read of a key that the backend holds is no [KeyError]. *)
Lemma getitem_has_key c key s k :
  has_key c key s = true -> (cache_getitem c key s).1 <> Raise (MissingEntry k).
Proof.
  intros H. destruct c; py_run; try done;
    apply bool_decide_eq_true_1 in H; destruct H as [? H]; congruence.
Qed.

(** C5.  The final read [_cache[hash_]] only runs in a state in which the
    backend holds the key: lines 56-60 end with the key in the backend,
    on a hit because it was found and on a miss because it was just
    written; so the read never raises the [KeyError] of a missing entry,
    and no call of [decorated] does. *)
Theorem final_read_finds_key orig_func c key p s s1 :
  lookup_or_compute orig_func c key p s = (Ret tt, s1) ->
  has_key c key s1 = true
  /\ (forall k, (cache_getitem c key s1).1 <> Raise (MissingEntry k))
  /\ (forall db hash args kwargs s0 k,
        (decorated orig_func db hash args kwargs s0).1 <> Raise (MissingEntry k)).
Proof.
  intros H. pose proof (lookup_or_compute_has_key _ _ _ _ _ _ H) as Hk.
  split; [done|]. split; [intros k; by apply getitem_has_key|].
  clear. intros db hash args kwargs s0 k.
  unfold decorated, mbind, M_bind, bind, lift, try_finally.
  destruct (fn_bind orig_func args kwargs) as [p|x]; simpl; [|done].
  destruct (derive (fn_name orig_func) hash p) as [key|x]; simpl; [|done].
  destruct (open_cache shelve_open_error db _) as [[c|e] s1] eqn:Hopen.
  2:{ destruct db as [path|]; py_run; done. }
  destruct (lookup_or_compute orig_func c key p s1) as [[[]|e] s2] eqn:Hbody.
  - pose proof (lookup_or_compute_has_key _ _ _ _ _ _ Hbody) as Hk.
    pose proof (getitem_has_key c key s2 k Hk) as Hget.
    destruct (cache_getitem c key s2) as [r s3]; simpl in *.
    destruct c; simpl; [done|]. done.
  - destruct c; simpl.
    + clear Hopen. py_run; done.
    + clear Hopen. py_run; done.
Qed.

(** *** What a call does, case by case *)

Lemma getitem_state c key s : (cache_getitem c key s).2 = s.
Proof. destruct c; py_run; done. Qed.

Lemma getitem_pair c key s : cache_getitem c key s = ((cache_getitem c key s).1, s).
Proof. rewrite <- (getitem_state c key s) at 3. by destruct (cache_getitem c key s). Qed.

(** The read only depends on the entries of the backend. *)
Lemma getitem_entries c key s1 s2 :
  mem_cache s1 = mem_cache s2 -> shelf s1 = shelf s2 ->
  (cache_getitem c key s1).1 = (cache_getitem c key s2).1.
Proof.
  intros Hm Hs. destruct c; py_unfold; rewrite ?Hm, ?Hs.
  - by destruct (mem_cache s2 !! key).
  - destruct (shelf s2 !! key) as [pk|]; [|done]. unfold lift. by destruct (loads pk).
Qed.

Lemma decorated_bind_raise orig_func db hash args kwargs x s :
  fn_bind orig_func args kwargs = Raise x ->
  decorated orig_func db hash args kwargs s = (Raise (BindError x), s).
Proof. intros Hb. py_unfold. by rewrite Hb. Qed.

Lemma decorated_derive_raise orig_func db hash args kwargs p x s :
  fn_bind orig_func args kwargs = Ret p ->
  derive (fn_name orig_func) hash p = Raise x ->
  decorated orig_func db hash args kwargs s = (Raise (HashError x), s).
Proof. intros Hb Hd. py_unfold. by rewrite Hb, Hd. Qed.

Lemma decorated_open_raise orig_func path hash args kwargs p key x s :
  fn_bind orig_func args kwargs = Ret p ->
  derive (fn_name orig_func) hash p = Ret key ->
  shelve_open_error path = Some x ->
  decorated orig_func (Some path) hash args kwargs s
  = (Raise (OpenError x), set_info_last_hash (Some key) s).
Proof. intros Hb Hd Ho. py_unfold. rewrite Hb, Hd. simpl. by rewrite Ho. Qed.

Lemma decorated_hit orig_func db hash args kwargs p key s :
  fn_bind orig_func args kwargs = Ret p ->
  derive (fn_name orig_func) hash p = Ret key ->
  db_opens db ->
  has_key (cache_of db) key s = true ->
  decorated orig_func db hash args kwargs s
  = ((cache_getitem (cache_of db) key s).1,
     State (stats_cached s + 1) (stats_computed s) (Some key)
       (mem_cache s) (shelf s) (shelf_log s ++ handle_events db) (world s)).
Proof.
  intros Hb Hd Ho Hhit.
  destruct db as [path|]; py_unfold; simpl in *;
    rewrite Hb, Hd; simpl; rewrite ?Ho; simpl; rewrite Hhit; simpl.
  - destruct (shelf s !! key) as [pk|]; simpl;
      [destruct (loads pk)|]; simpl; by rewrite <- app_assoc.
  - destruct (mem_cache s !! key); simpl; by rewrite app_nil_r.
Qed.

Lemma decorated_miss_raise orig_func db hash args kwargs p key x w s :
  fn_bind orig_func args kwargs = Ret p ->
  derive (fn_name orig_func) hash p = Ret key ->
  db_opens db ->
  has_key (cache_of db) key s = false ->
  fn_call orig_func p (world s) = (Raise x, w) ->
  decorated orig_func db hash args kwargs s
  = (Raise (ComputationError x),
     State (stats_cached s) (stats_computed s + 1) (Some key)
       (mem_cache s) (shelf s) (shelf_log s ++ handle_events db) w).
Proof.
  intros Hb Hd Ho Hmiss Hcall.
  destruct db as [path|]; py_unfold; simpl in *;
    rewrite Hb, Hd; simpl; rewrite ?Ho; simpl; rewrite Hmiss; simpl;
    rewrite Hcall; simpl.
  - by rewrite <- app_assoc.
  - by rewrite app_nil_r.
Qed.

Lemma decorated_miss orig_func db hash args kwargs p key v w s :
  fn_bind orig_func args kwargs = Ret p ->
  derive (fn_name orig_func) hash p = Ret key ->
  db_opens db ->
  has_key (cache_of db) key s = false ->
  fn_call orig_func p (world s) = (Ret v, w) ->
  decorated orig_func db hash args kwargs s
  = let s_computed :=
      State (stats_cached s) (stats_computed s + 1) (Some key)
        (mem_cache s) (shelf s) (shelf_log s) w in
    match cache_setitem (cache_of db) key v s_computed with
    | (Ret _, s_set) =>
        ((cache_getitem (cache_of db) key s_set).1,
         set_shelf_log (shelf_log s ++ handle_events db) s_set)
    | (Raise e, _) =>
        (Raise e, set_shelf_log (shelf_log s ++ handle_events db) s_computed)
    end.
Proof.
  intros Hb Hd Ho Hmiss Hcall.
  destruct db as [path|]; py_unfold; simpl in *;
    rewrite Hb, Hd; simpl; rewrite ?Ho; simpl; rewrite Hmiss; simpl;
    rewrite Hcall; simpl.
  - destruct (dumps v) as [pk|x]; simpl.
    + rewrite lookup_insert_eq. unfold set_shelf_log; simpl.
      destruct (loads pk); simpl; by rewrite <- app_assoc.
    + unfold set_shelf_log; simpl. by rewrite <- app_assoc.
  - rewrite lookup_insert_eq. unfold set_shelf_log; simpl. by rewrite app_nil_r.
Qed.

(** Every call is one of these six. *)
Lemma decorated_cases (Q : outcome error V * state -> Prop)
    orig_func db hash args kwargs s :
  (forall x,
      fn_bind orig_func args kwargs = Raise x ->
      Q (Raise (BindError x), s)) ->
  (forall p x,
      fn_bind orig_func args kwargs = Ret p ->
      derive (fn_name orig_func) hash p = Raise x ->
      Q (Raise (HashError x), s)) ->
  (forall p key path x,
      fn_bind orig_func args kwargs = Ret p ->
      derive (fn_name orig_func) hash p = Ret key ->
      db = Some path -> shelve_open_error path = Some x ->
      Q (Raise (OpenError x), set_info_last_hash (Some key) s)) ->
  (forall p key,
      fn_bind orig_func args kwargs = Ret p ->
      derive (fn_name orig_func) hash p = Ret key ->
      db_opens db -> has_key (cache_of db) key s = true ->
      Q ((cache_getitem (cache_of db) key s).1,
         State (stats_cached s + 1) (stats_computed s) (Some key)
           (mem_cache s) (shelf s) (shelf_log s ++ handle_events db) (world s))) ->
  (forall p key x w,
      fn_bind orig_func args kwargs = Ret p ->
      derive (fn_name orig_func) hash p = Ret key ->
      db_opens db -> has_key (cache_of db) key s = false ->
      fn_call orig_func p (world s) = (Raise x, w) ->
      Q (Raise (ComputationError x),
         State (stats_cached s) (stats_computed s + 1) (Some key)
           (mem_cache s) (shelf s) (shelf_log s ++ handle_events db) w)) ->
  (forall p key v w o s_set,
      fn_bind orig_func args kwargs = Ret p ->
      derive (fn_name orig_func) hash p = Ret key ->
      db_opens db -> has_key (cache_of db) key s = false ->
      fn_call orig_func p (world s) = (Ret v, w) ->
      cache_setitem (cache_of db) key v
        (State (stats_cached s) (stats_computed s + 1) (Some key)
           (mem_cache s) (shelf s) (shelf_log s) w) = (o, s_set) ->
      Q (match o with
         | Ret _ => (cache_getitem (cache_of db) key s_set).1
         | Raise e => Raise e
         end,
         set_shelf_log (shelf_log s ++ handle_events db) s_set)) ->
  Q (decorated orig_func db hash args kwargs s).
Proof.
  intros Hbind Hhash Hopen Hhit Hraise Hmiss.
  case_eq (fn_bind orig_func args kwargs); [intros p Hb | intros x Hb].
  2:{ rewrite (decorated_bind_raise _ _ _ _ _ x) by done. by apply Hbind. }
  case_eq (derive (fn_name orig_func) hash p); [intros key Hd | intros x Hd].
  2:{ rewrite (decorated_derive_raise _ _ _ _ _ p x) by done. by eapply Hhash. }
  assert (db_opens db \/ exists path x, db = Some path /\ shelve_open_error path = Some x)
    as [Ho|(path & x & Hdb & Ho)].
  { destruct db as [path|]; simpl; [|by left].
    destruct (shelve_open_error path) as [x|] eqn:Ho; [right; by eauto | by left]. }
  2:{ rewrite Hdb, (decorated_open_raise _ _ _ _ _ p key x) by done. by eapply Hopen. }
  case_eq (has_key (cache_of db) key s); intros Hk.
  { rewrite (decorated_hit _ _ _ _ _ p key) by done. by eapply Hhit. }
  case_eq (fn_call orig_func p (world s)); intros [v|x] w Hcall.
  2:{ rewrite (decorated_miss_raise _ _ _ _ _ p key x w) by done. by eapply Hraise. }
  rewrite (decorated_miss _ _ _ _ _ p key v w) by done. simpl.
  destruct (cache_setitem _ _ _ _) as [o s_set] eqn:Hset.
  specialize (Hmiss p key v w o s_set Hb Hd Ho Hk Hcall Hset).
  destruct o as [[]|e]; [done|].
  replace s_set with (State (stats_cached s) (stats_computed s + 1) (Some key)
           (mem_cache s) (shelf s) (shelf_log s) w) in Hmiss; [done|].
  clear -Hset. destruct db as [path|]; py_run; done.
Qed.

(** C4.  The value a call returns is the one read back from the
    backend at the derived key: reading the backend again after the call
    gives it, and on a miss it is what [_cache[hash_]] gives once
    [_cache[hash_] = result] has run, whatever the result was. *)
Theorem returned_value_is_reread orig_func db hash args kwargs s r s' :
  decorated orig_func db hash args kwargs s = (Ret r, s') ->
  exists p key,
    fn_bind orig_func args kwargs = Ret p
    /\ derive (fn_name orig_func) hash p = Ret key
    /\ (cache_getitem (cache_of db) key s').1 = Ret r
    /\ (has_key (cache_of db) key s = false ->
        exists v s_computed s_set,
          fn_call orig_func p (world s) = (Ret v, world s_computed)
          /\ cache_setitem (cache_of db) key v s_computed = (Ret tt, s_set)
          /\ cache_getitem (cache_of db) key s_set = (Ret r, s_set)).
Proof.
  revert r s'. apply decorated_cases; try done.
  - intros p key Hb Hd Ho Hhit r s' [= Hr <-].
    exists p, key. split; [done|]. split; [done|]. split; [|congruence].
    rewrite <- Hr. by apply getitem_entries.
  - intros p key v w o s_set Hb Hd Ho Hmiss Hcall Hset r s' H.
    destruct o as [[]|e]; [|done]. injection H as Hr <-.
    exists p, key. split; [done|]. split; [done|]. split.
    + rewrite <- Hr. by apply getitem_entries.
    + intros _. eexists v, _, s_set. split; [|split; [exact Hset|]].
      * done.
      * by rewrite getitem_pair, Hr.
Qed.

(** A write only touches the entry of its key. *)
Lemma setitem_frame c key v s o s_set :
  cache_setitem c key v s = (o, s_set) ->
  stats_cached s_set = stats_cached s
  /\ stats_computed s_set = stats_computed s
  /\ info_last_hash s_set = info_last_hash s
  /\ shelf_log s_set = shelf_log s
  /\ world s_set = world s
  /\ forall k, k <> key ->
       mem_cache s_set !! k = mem_cache s !! k /\ shelf s_set !! k = shelf s !! k.
Proof.
  intros H. destruct c; py_run; try (injection H as <- <-); simpl;
    (split_and!; [done..|]); intros k Hk; by rewrite ?lookup_insert_ne.
Qed.

Lemma setitem_error c key v s e s_set :
  cache_setitem c key v s = (Raise e, s_set) -> exists x, e = StoreError x.
Proof. intros H. destruct c; py_run; by eauto. Qed.

Lemma getitem_error c key s e :
  (cache_getitem c key s).1 = Raise e -> e = MissingEntry key \/ exists x, e = LoadError x.
Proof. intros H. destruct c; py_run; by eauto. Qed.

(** A call only touches the entry of the key it derives. *)
Lemma decorated_frame orig_func db hash args kwargs s k :
  (forall p, fn_bind orig_func args kwargs = Ret p ->
             derive (fn_name orig_func) hash p <> Ret k) ->
  mem_cache (decorated orig_func db hash args kwargs s).2 !! k = mem_cache s !! k
  /\ shelf (decorated orig_func db hash args kwargs s).2 !! k = shelf s !! k.
Proof.
  intros Hk. pattern (decorated orig_func db hash args kwargs s).
  apply decorated_cases; try done.
  intros p key v w o s_set Hb Hd Ho Hmiss Hcall Hset.
  apply setitem_frame in Hset as (_ & _ & _ & _ & _ & Hset).
  simpl. apply Hset. intros ->. by apply (Hk p).
Qed.

(** C6, as the code has it.  No call lowers a counter, and a call whose
    binding or key derivation raises changes nothing.  A call that
    derives its key overwrites [last_hash] with it and leaves every entry
    of the backend under another key as it was; if its backend opens as
    well, it raises exactly one of the two counters, by exactly 1:
    [cached] on a hit, [computed] on a miss. *)
Theorem stats_and_info_once_per_call orig_func db hash args kwargs s o s' :
  decorated orig_func db hash args kwargs s = (o, s') ->
  (stats_cached s <= stats_cached s' /\ stats_computed s <= stats_computed s')
  /\ ((exists x, o = Raise (BindError x) \/ o = Raise (HashError x)) -> s' = s)
  /\ forall p key,
       fn_bind orig_func args kwargs = Ret p ->
       derive (fn_name orig_func) hash p = Ret key ->
       info_last_hash s' = Some key
       /\ (forall k, k <> key ->
             mem_cache s' !! k = mem_cache s !! k /\ shelf s' !! k = shelf s !! k)
       /\ (db_opens db ->
           ((stats_cached s' = stats_cached s + 1 /\ stats_computed s' = stats_computed s)
            \/ (stats_cached s' = stats_cached s /\ stats_computed s' = stats_computed s + 1))
           /\ (if has_key (cache_of db) key s
               then stats_cached s' = stats_cached s + 1
               else stats_computed s' = stats_computed s + 1)).
Proof.
  intros H. split; [|split].
  - revert o s' H. apply decorated_cases; intros; simplify_eq; simpl; try lia.
    match goal with H : cache_setitem _ _ _ _ = _ |- _ =>
      apply setitem_frame in H as (-> & -> & _) end. simpl. lia.
  - intros [x Hx]. revert o s' H Hx.
    apply decorated_cases; intros; simplify_eq; try done.
    + destruct Hx; done.
    + destruct Hx as [Hx|Hx]; apply getitem_error in Hx as [?|[? ?]]; done.
    + destruct Hx; done.
    + destruct o as [[]|e].
      * destruct Hx as [Hx|Hx]; apply getitem_error in Hx as [?|[? ?]]; done.
      * match goal with H : cache_setitem _ _ _ _ = _ |- _ =>
          apply setitem_error in H as [? ->] end.
        destruct Hx; done.
  - intros p key Hb Hd. split; [|split].
    + revert o s' H. apply decorated_cases.
      * congruence.
      * intros p' x Hb' Hd'. congruence.
      * intros p' key' path x Hb' Hd' _ _ o s' [= _ <-]. simpl. congruence.
      * intros p' key' Hb' Hd' _ _ o s' [= _ <-]. simpl. congruence.
      * intros p' key' x w Hb' Hd' _ _ _ o s' [= _ <-]. simpl. congruence.
      * intros p' key' v w o' s_set Hb' Hd' _ _ _ Hset o s' [= _ <-].
        apply setitem_frame in Hset as (_ & _ & Hi & _). simpl in *. congruence.
    + intros k Hk.
      pose proof (decorated_frame orig_func db hash args kwargs s k) as Hfr.
      rewrite H in Hfr. apply Hfr. intros p' Hb'. congruence.
    + intros Ho. revert o s' H. apply decorated_cases.
      * congruence.
      * intros p' x Hb' Hd'. congruence.
      * intros p' key' path x Hb' Hd' -> Hx. simpl in Ho. congruence.
      * intros p' key' Hb' Hd' _ Hhit o s' [= _ <-].
        replace key with key' by congruence. rewrite Hhit. simpl.
        split; [left|]; done.
      * intros p' key' x w Hb' Hd' _ Hmiss _ o s' [= _ <-].
        replace key with key' by congruence. rewrite Hmiss. simpl.
        split; [right|]; done.
      * intros p' key' v w o' s_set Hb' Hd' _ Hmiss _ Hset o s' [= _ <-].
        replace key with key' by congruence. rewrite Hmiss.
        apply setitem_frame in Hset as (Hc & Hm & _). simpl in *.
        split; [right|]; done.
Qed.

Lemma has_key_entries c key s1 s2 :
  mem_cache s1 = mem_cache s2 -> shelf s1 = shelf s2 ->
  has_key c key s1 = has_key c key s2.
Proof. intros Hm Hs. destruct c; py_unfold; by rewrite ?Hm, ?Hs. Qed.

(** What a write followed by a read gives does not depend on the state,
    and the write leaves the key in the backend. *)
Lemma store_then_read_inv c key v s r :
  (store_then_read c key v s).1 = Ret r ->
  forall s0, exists s_set,
    cache_setitem c key v s0 = (Ret tt, s_set)
    /\ (cache_getitem c key s_set).1 = Ret r
    /\ has_key c key s_set = true.
Proof.
  intros H s0. destruct c; py_unfold; simpl in *.
  - eexists. split; [reflexivity|]. simpl. rewrite lookup_insert_eq in *.
    simpl in *. done.
  - destruct (dumps v) as [pk|x]; simpl in *; [|done].
    eexists. split; [reflexivity|]. simpl. rewrite lookup_insert_eq in *.
    destruct (loads pk); simpl in *; done.
Qed.

(** C1, as the code has it.  The first call whose derived key is new
    invokes the computation and counts one computed call and no cached
    one; when the backend stores the result, the call returns what the
    backend reads back for it, which on the in-memory backend is the
    result itself.  A repeated call with an equal parameter set then
    returns the same value, counts one cached call and no computed one,
    and does not invoke the computation. *)
Theorem miss_then_hit orig_func db hash args kwargs args' kwargs' p key v w r s :
  fn_bind orig_func args kwargs = Ret p ->
  fn_bind orig_func args' kwargs' = Ret p ->
  derive (fn_name orig_func) hash p = Ret key ->
  db_opens db ->
  has_key (cache_of db) key s = false ->
  fn_call orig_func p (world s) = (Ret v, w) ->
  (store_then_read (cache_of db) key v s).1 = Ret r ->
  exists s1 s2,
    decorated orig_func db hash args kwargs s = (Ret r, s1)
    /\ stats_computed s1 = stats_computed s + 1
    /\ stats_cached s1 = stats_cached s
    /\ world s1 = w
    /\ (db = None -> r = v)
    /\ decorated orig_func db hash args' kwargs' s1 = (Ret r, s2)
    /\ stats_cached s2 = stats_cached s1 + 1
    /\ stats_computed s2 = stats_computed s1
    /\ world s2 = w.
Proof.
  intros Hb Hb' Hd Ho Hmiss Hcall Hrt.
  assert (db = None -> r = v) as Hmem.
  { intros ->. py_unfold. simpl in Hrt. rewrite lookup_insert_eq in Hrt.
    simpl in Hrt. congruence. }
  destruct (store_then_read_inv _ _ _ _ _ Hrt
              (State (stats_cached s) (stats_computed s + 1) (Some key)
                 (mem_cache s) (shelf s) (shelf_log s) w))
    as (s_set & Hset & Hget & Hhas).
  pose proof (setitem_frame _ _ _ _ _ _ Hset) as (Hc & Hm & Hi & Hl & Hw & _).
  simpl in *.
  rewrite (decorated_miss _ _ _ _ _ p key v w) by done. simpl. rewrite Hset, Hget.
  set (s1 := set_shelf_log (shelf_log s ++ handle_events db) s_set).
  assert (has_key (cache_of db) key s1 = true) as Hhas1.
  { rewrite <- Hhas. by apply has_key_entries. }
  assert ((cache_getitem (cache_of db) key s1).1 = Ret r) as Hget1.
  { rewrite <- Hget. by apply getitem_entries. }
  exists s1. rewrite (decorated_hit _ _ _ _ _ p key) by done. rewrite Hget1.
  eexists. split_and!; [reflexivity | done | done | done | done | reflexivity | | | ];
    simpl; done.
Qed.

(** *** One key for every call *)

Lemma setitem_has_key c key v s s_set :
  cache_setitem c key v s = (Ret tt, s_set) -> has_key c key s_set = true.
Proof.
  intros H. destruct c; py_unfold; simpl in *.
  - injection H as <-. simpl. rewrite lookup_insert_eq. by apply bool_decide_eq_true_2.
  - destruct (dumps v) as [pk|x]; simpl in *; [|done].
    injection H as <-. simpl. rewrite lookup_insert_eq. by apply bool_decide_eq_true_2.
Qed.

(** A call that returns leaves its key in a backend that opens, with
    the returned value as what the backend reads for it. *)
Lemma decorated_ret_inv orig_func db hash args kwargs s r s' :
  decorated orig_func db hash args kwargs s = (Ret r, s') ->
  exists p key,
    fn_bind orig_func args kwargs = Ret p
    /\ derive (fn_name orig_func) hash p = Ret key
    /\ db_opens db
    /\ has_key (cache_of db) key s' = true
    /\ (cache_getitem (cache_of db) key s').1 = Ret r.
Proof.
  revert r s'. apply decorated_cases; try done.
  - intros p key Hb Hd Ho Hhit r s' [= Hr <-].
    exists p, key. split_and!; [done|done|done| |].
    + rewrite <- Hhit. by apply has_key_entries.
    + rewrite <- Hr. by apply getitem_entries.
  - intros p key v w o s_set Hb Hd Ho Hmiss Hcall Hset r s' H.
    destruct o as [[]|e]; [|done]. injection H as Hr <-.
    exists p, key. split_and!; [done|done|done| |].
    + transitivity (has_key (cache_of db) key s_set); [by apply has_key_entries|].
      by eapply setitem_has_key.
    + rewrite <- Hr. by apply getitem_entries.
Qed.

(** While every call derives [key] and the backend holds it, calls
    leave the entry as it is. *)
Lemma decorated_keeps_entry orig_func db hash key r args kwargs s :
  (forall p, derive (fn_name orig_func) hash p = Ret key) ->
  has_key (cache_of db) key s = true ->
  (cache_getitem (cache_of db) key s).1 = Ret r ->
  has_key (cache_of db) key (decorated orig_func db hash args kwargs s).2 = true
  /\ (cache_getitem (cache_of db) key (decorated orig_func db hash args kwargs s).2).1
     = Ret r.
Proof.
  intros Hkey Hhas Hget.
  pattern (decorated orig_func db hash args kwargs s).
  apply decorated_cases; simpl; try done.
  - intros p key' path x _ _ _ _. split.
    + rewrite <- Hhas. by apply has_key_entries.
    + rewrite <- Hget. by apply getitem_entries.
  - intros p key' _ _ _ _. split.
    + rewrite <- Hhas. by apply has_key_entries.
    + rewrite <- Hget. by apply getitem_entries.
  - intros p key' x w _ Hd _ Hmiss _. rewrite Hkey in Hd. congruence.
  - intros p key' v w o s_set _ Hd _ Hmiss _ _. rewrite Hkey in Hd. congruence.
Qed.

Lemma run_calls_keeps_entry orig_func db hash key r calls s :
  (forall p, derive (fn_name orig_func) hash p = Ret key) ->
  has_key (cache_of db) key s = true ->
  (cache_getitem (cache_of db) key s).1 = Ret r ->
  has_key (cache_of db) key (run_calls orig_func db hash calls s) = true
  /\ (cache_getitem (cache_of db) key (run_calls orig_func db hash calls s)).1 = Ret r.
Proof.
  intros Hkey. revert s.
  induction calls as [|[args kwargs] calls IH]; intros s Hhas Hget; simpl; [done|].
  destruct (decorated_keeps_entry orig_func db hash key r args kwargs s) as [H1 H2];
    try done.
  by apply IH.
Qed.

Lemma run_calls_frame orig_func db hash key calls s k :
  (forall p, derive (fn_name orig_func) hash p = Ret key) ->
  k <> key ->
  mem_cache (run_calls orig_func db hash calls s) !! k = mem_cache s !! k
  /\ shelf (run_calls orig_func db hash calls s) !! k = shelf s !! k.
Proof.
  intros Hkey Hk. revert s.
  induction calls as [|[args kwargs] calls IH]; intros s; simpl; [done|].
  destruct (IH (decorated orig_func db hash args kwargs s).2) as [-> ->].
  apply decorated_frame. intros p _. rewrite Hkey. congruence.
Qed.

(** C9, as the code has it.  With [hash=None] every call of the wrapped
    function derives the one key [name__], whatever its arguments, and
    no call touches another entry of the backend.  Once a call has
    returned, every later call, with any parameter set, is a hit that
    returns the value that call returned and does not invoke the
    computation; on the in-memory backend, when that first call was a
    miss, the value is the result it computed. *)
Theorem degenerate_hash_single_entry orig_func db args0 kwargs0 r s0 s1 :
  cache orig_func db HashNone args0 kwargs0 s0 = (Ret r, s1) ->
  let key := (fn_name orig_func +:+ "__") +:+ "" in
  let later := run_calls orig_func db (cache_hash HashNone) in
  (forall p, derive (fn_name orig_func) (cache_hash HashNone) p = Ret key)
  /\ (forall calls k, k <> key ->
        mem_cache (later calls s1) !! k = mem_cache s0 !! k
        /\ shelf (later calls s1) !! k = shelf s0 !! k)
  /\ (forall calls args kwargs p,
        fn_bind orig_func args kwargs = Ret p ->
        exists s',
          cache orig_func db HashNone args kwargs (later calls s1) = (Ret r, s')
          /\ stats_cached s' = stats_cached (later calls s1) + 1
          /\ stats_computed s' = stats_computed (later calls s1)
          /\ world s' = world (later calls s1))
  /\ (db = None -> has_key MemCache key s0 = false ->
      exists p0 v,
        fn_bind orig_func args0 kwargs0 = Ret p0
        /\ fn_call orig_func p0 (world s0) = (Ret v, world s1)
        /\ r = v).
Proof.
  intros H key later. unfold_cache.
  assert (forall p, derive (fn_name orig_func) (cache_hash HashNone) p = Ret key)
    as Hkey by done.
  split; [done|].
  pose proof (decorated_ret_inv _ _ _ _ _ _ _ _ H) as (p0 & key0 & Hb0 & Hd0 & Ho & Hhas & Hget).
  rewrite Hkey in Hd0. injection Hd0 as <-.
  split; [|split].
  - intros calls k Hk. subst later.
    destruct (run_calls_frame orig_func db (cache_hash HashNone) key calls s1 k)
      as [-> ->]; try done.
    pose proof (decorated_frame orig_func db (cache_hash HashNone) args0 kwargs0 s0 k) as Hfr.
    rewrite H in Hfr. apply Hfr. intros p _. rewrite Hkey. congruence.
  - intros calls args kwargs p Hb. subst later.
    destruct (run_calls_keeps_entry orig_func db (cache_hash HashNone) key r calls s1)
      as [Hhas' Hget']; try done.
    rewrite (decorated_hit _ _ _ _ _ p key) by done.
    rewrite Hget'. eexists. split; [reflexivity|]. done.
  - intros -> Hmiss. revert H. clear Hhas Hget.
    generalize r s1. apply decorated_cases; try done.
    + intros p key' Hb Hd _ Hhit. rewrite Hkey in Hd. injection Hd as <-.
      simpl in *. congruence.
    + intros p key' v w o s_set Hb Hd _ _ Hcall Hset r' s' H.
      rewrite Hkey in Hd. injection Hd as <-.
      exists p, v. rewrite Hb0 in Hb. injection Hb as <-.
      simpl in Hset. py_unfold. simpl in *. injection Hset as <- <-.
      simpl in H. rewrite lookup_insert_eq in H. simpl in H. injection H as <- <-.
      done.
Qed.

(** ** Beyond the claims: the other paths of [cache] and [decorated] *)

Abbreviation cache_or_partial :=
  (@cache_or_partial V X P W repr dumps loads shelve_open_error).
Abbreviation apply_decorator :=
  (@apply_decorator V X P W repr dumps loads shelve_open_error).
Abbreviation derives_key := (@derives_key V X W).

(** *** Helper lemmas *)

Lemma has_key_false_lookup c key s :
  has_key c key s = false ->
  match c with
  | MemCache => mem_cache s !! key = None
  | Shelf _ => shelf s !! key = None
  end.
Proof.
  intros H. destruct c; py_unfold; apply bool_decide_eq_false_1 in H;
    by apply eq_None_not_Some.
Qed.

(** A write under a key that the backend does not hold keeps every entry
    and adds at most one. *)
Lemma setitem_new_key c key v s o s_set :
  has_key c key s = false ->
  cache_setitem c key v s = (o, s_set) ->
  mem_cache s ⊆ mem_cache s_set
  /\ shelf s ⊆ shelf s_set
  /\ (size (mem_cache s_set) <= S (size (mem_cache s)))%nat
  /\ (c = MemCache -> shelf s_set = shelf s)
  /\ (forall path, c = Shelf path -> mem_cache s_set = mem_cache s).
Proof.
  intros Hmiss H. apply has_key_false_lookup in Hmiss.
  destruct c; py_unfold; simpl in *.
  - injection H as <- <-. simpl. split_and!; try done.
    + by apply insert_subseteq.
    + by rewrite map_size_insert_None.
  - destruct (dumps v) as [pk|x]; simpl in *; injection H as <- <-; simpl;
      split_and!; try done; try lia.
    by apply insert_subseteq.
Qed.

Lemma balanced_app (l1 l2 : list event) :
  balanced l1 = true -> balanced (l1 ++ l2) = balanced l2.
Proof.
  assert (forall n (l : list event), (length l <= n)%nat ->
            balanced l = true -> balanced (l ++ l2) = balanced l2) as Hn.
  { induction n as [|n IH]; intros l Hlen Hl.
    - destruct l; [done | simpl in Hlen; lia].
    - destruct l as [|[p|p] [|[q|q] l]]; simpl in *; try done.
      apply andb_prop in Hl as [-> Hl]. simpl. apply IH; [lia | done]. }
  by apply (Hn (length l1)).
Qed.

Lemma balanced_handle_events db : balanced (handle_events db) = true.
Proof. destruct db as [path|]; simpl; [|done]. by rewrite String.eqb_refl. Qed.

(** What a call appends to the log: nothing, or the open and the close of
    one handle. *)
Lemma decorated_log orig_func db hash args kwargs s :
  shelf_log (decorated orig_func db hash args kwargs s).2 = shelf_log s
  \/ shelf_log (decorated orig_func db hash args kwargs s).2
     = (shelf_log s ++ handle_events db)%list.
Proof.
  pattern (decorated orig_func db hash args kwargs s).
  apply decorated_cases; simpl; intros; by eauto.
Qed.

Lemma prefix_app (a b : string) : String.prefix a (a +:+ b) = true.
Proof.
  induction a as [|c a IH]; simpl; [by destruct b|].
  destruct (ascii_dec c c); [done | congruence].
Qed.

Lemma derive_prefix name hash p key :
  derive name hash p = Ret key -> PyStr.startswith key (name +:+ "__") = true.
Proof.
  unfold derive. destruct (hash p) as [h|x]; [|done].
  intros [= <-]. apply prefix_app.
Qed.

Lemma find_char_app c (a b : string) :
  PyStr.contains_char c a = false ->
  PyStr.find_char c (a +:+ b) = (String.length a + PyStr.find_char c b)%nat.
Proof.
  induction a as [|c' a IH]; simpl; [done|].
  destruct (Ascii.eqb c' c); [done|]. intros H. by rewrite IH.
Qed.

Lemma app_inj_length (a b x y : string) :
  String.length a = String.length b -> a +:+ x = b +:+ y -> a = b.
Proof.
  revert b. induction a as [|c a IH]; intros [|d b] Hlen H; simpl in *; try done.
  injection H as -> H. f_equal. apply IH; [lia | done].
Qed.

Lemma string_app_assoc (a b c : string) : (a +:+ b) +:+ c = a +:+ (b +:+ c).
Proof.
  induction a as [|x a IH]; [reflexivity|].
  change (String x ((a +:+ b) +:+ c) = String x (a +:+ (b +:+ c))). by f_equal.
Qed.

(** *** The decorator form *)


(** *** Errors before the lookup *)

(** X2.  When the arguments do not fit the signature, the exception of
    [sig.bind] reaches the caller and the call changes nothing: no counter,
    not [last_hash], no entry, and no store is opened. *)
Theorem bind_failure_mutates_nothing orig_func db hash args kwargs x s :
  fn_bind orig_func args kwargs = Raise x ->
  decorated orig_func db hash args kwargs s = (Raise (BindError x), s).
Proof. apply decorated_bind_raise. Qed.

(** X3.  When the store cannot be opened, the exception reaches the
    caller before anything is looked up or computed: [last_hash] holds the
    new key, and the counters, the entries, the log and the world are as
    they were. *)
Theorem open_failure_computes_nothing orig_func path hash args kwargs p key x s :
  fn_bind orig_func args kwargs = Ret p ->
  derive (fn_name orig_func) hash p = Ret key ->
  shelve_open_error path = Some x ->
  exists s',
    decorated orig_func (Some path) hash args kwargs s = (Raise (OpenError x), s')
    /\ info_last_hash s' = Some key
    /\ stats_cached s' = stats_cached s
    /\ stats_computed s' = stats_computed s
    /\ mem_cache s' = mem_cache s
    /\ shelf s' = shelf s
    /\ shelf_log s' = shelf_log s
    /\ world s' = world s.
Proof.
  intros Hb Hd Ho. eexists.
  split; [by apply (decorated_open_raise _ _ _ _ _ p key x)|]. done.
Qed.

(** *** Hits *)

(** X4.  A call whose key the backend holds does not invoke the wrapped
    function and writes nothing: it gives what the backend reads for the
    key, counts one cached call, and leaves the entries and the world as
    they were. *)
Theorem hit_reads_and_computes_nothing orig_func db hash args kwargs p key s :
  fn_bind orig_func args kwargs = Ret p ->
  derive (fn_name orig_func) hash p = Ret key ->
  db_opens db ->
  has_key (cache_of db) key s = true ->
  exists s',
    decorated orig_func db hash args kwargs s
    = ((cache_getitem (cache_of db) key s).1, s')
    /\ stats_cached s' = stats_cached s + 1
    /\ stats_computed s' = stats_computed s
    /\ mem_cache s' = mem_cache s
    /\ shelf s' = shelf s
    /\ world s' = world s
    /\ shelf_log s' = (shelf_log s ++ handle_events db)%list.
Proof.
  intros Hb Hd Ho Hhit. eexists.
  split; [by apply (decorated_hit _ _ _ _ _ p key)|]. done.
Qed.

(** X5.  An entry that cannot be unpickled stays: the call counts as
    cached, raises the exception of the unpickling with the handle closed,
    and neither recomputes nor rewrites the entry, so the next call for the
    key finds the same entry. *)
Theorem unreadable_entry_is_kept orig_func path hash args kwargs p key pk x s :
  fn_bind orig_func args kwargs = Ret p ->
  derive (fn_name orig_func) hash p = Ret key ->
  shelve_open_error path = None ->
  shelf s !! key = Some pk ->
  loads pk = Raise x ->
  exists s',
    decorated orig_func (Some path) hash args kwargs s = (Raise (LoadError x), s')
    /\ stats_cached s' = stats_cached s + 1
    /\ stats_computed s' = stats_computed s
    /\ shelf s' = shelf s
    /\ world s' = world s
    /\ shelf_log s' = (shelf_log s ++ [EvOpen path; EvClose path])%list.
Proof.
  intros Hb Hd Ho Hpk Hl.
  assert (has_key (cache_of (Some path)) key s = true) as Hhit.
  { py_unfold. simpl. rewrite Hpk. by apply bool_decide_eq_true_2. }
  rewrite (decorated_hit _ _ _ _ _ p key) by done.
  assert ((cache_getitem (cache_of (Some path)) key s).1 = Raise (LoadError x)) as ->.
  { py_unfold. simpl. by rewrite Hpk, Hl. }
  eexists. split; [reflexivity|]. done.
Qed.

(** *** Misses that cannot be stored *)

(** X6.  On a miss whose result cannot be pickled, the computation has
    run and is counted, the exception of the pickling reaches the caller
    with the handle closed, and no entry is written: the key is still
    missing, so the next call computes again. *)
Theorem unstorable_result_is_not_cached orig_func path hash args kwargs p key v w x s :
  fn_bind orig_func args kwargs = Ret p ->
  derive (fn_name orig_func) hash p = Ret key ->
  shelve_open_error path = None ->
  has_key (Shelf path) key s = false ->
  fn_call orig_func p (world s) = (Ret v, w) ->
  dumps v = Raise x ->
  exists s',
    decorated orig_func (Some path) hash args kwargs s = (Raise (StoreError x), s')
    /\ stats_computed s' = stats_computed s + 1
    /\ stats_cached s' = stats_cached s
    /\ world s' = w
    /\ shelf s' = shelf s
    /\ has_key (Shelf path) key s' = false
    /\ shelf_log s' = (shelf_log s ++ [EvOpen path; EvClose path])%list.
Proof.
  intros Hb Hd Ho Hmiss Hcall Hdump. eexists.
  rewrite (decorated_miss _ _ _ _ _ p key v w); try done.
  py_unfold. simpl. rewrite Hdump. simpl. split; [reflexivity|]. done.
Qed.

(** *** What no sequence of calls does *)

(** X7.  No call leaves a handle open, whatever it returns or raises: a
    log in which every handle is closed stays so over any sequence of
    calls. *)
Theorem no_handle_left_open orig_func db hash calls s :
  balanced (shelf_log s) = true ->
  balanced (shelf_log (run_calls orig_func db hash calls s)) = true.
Proof.
  revert s. induction calls as [|[args kwargs] calls IH]; intros s Hs; simpl; [done|].
  apply IH.
  destruct (decorated_log orig_func db hash args kwargs s) as [-> | ->]; [done|].
  rewrite balanced_app by done. apply balanced_handle_events.
Qed.

Lemma decorated_entries_kept orig_func db hash args kwargs s :
  mem_cache s ⊆ mem_cache (decorated orig_func db hash args kwargs s).2
  /\ shelf s ⊆ shelf (decorated orig_func db hash args kwargs s).2.
Proof.
  pattern (decorated orig_func db hash args kwargs s).
  apply decorated_cases; simpl; try done.
  intros p key v w o s_set _ _ _ Hmiss _ Hset.
  eapply setitem_new_key in Hset as (Hm & Hs & _); [done|].
  rewrite <- Hmiss. by apply has_key_entries.
Qed.

(** X8.  Calls only add entries: over any sequence of calls, every entry
    that the in-memory dict or the shelf holds is still there with the same
    value; nothing is overwritten and nothing is evicted. *)
Theorem entries_are_never_overwritten orig_func db hash calls s :
  mem_cache s ⊆ mem_cache (run_calls orig_func db hash calls s)
  /\ shelf s ⊆ shelf (run_calls orig_func db hash calls s).
Proof.
  revert s. induction calls as [|[args kwargs] calls IH]; intros s; simpl; [done|].
  destruct (decorated_entries_kept orig_func db hash args kwargs s) as [Hm Hs].
  destruct (IH (decorated orig_func db hash args kwargs s).2) as [Hm' Hs'].
  split; etrans; done.
Qed.

Lemma decorated_other_backend orig_func db hash args kwargs s :
  (db = None ->
   shelf (decorated orig_func db hash args kwargs s).2 = shelf s
   /\ shelf_log (decorated orig_func db hash args kwargs s).2 = shelf_log s)
  /\ (is_Some db -> mem_cache (decorated orig_func db hash args kwargs s).2 = mem_cache s).
Proof.
  destruct db as [path|].
  - split; [done|]. intros _.
    pattern (decorated orig_func (Some path) hash args kwargs s).
    apply decorated_cases; try (intros; simpl; done).
    intros p key v w o s_set _ _ _ Hmiss _ Hset.
    eapply setitem_new_key in Hset as (_ & _ & _ & _ & Hsh).
    + by apply (Hsh path).
    + rewrite <- Hmiss. by apply has_key_entries.
  - split; [intros _|by intros [? ?]].
    pattern (decorated orig_func None hash args kwargs s).
    apply decorated_cases; try (intros; simpl; rewrite ?app_nil_r; done).
    intros p key v w o s_set _ _ _ Hmiss _ Hset.
    pose proof (setitem_frame _ _ _ _ _ _ Hset) as (_ & _ & _ & Hl & _).
    eapply setitem_new_key in Hset as (_ & _ & _ & Hmem & _).
    + simpl. rewrite app_nil_r. split; [by apply Hmem | done].
    + rewrite <- Hmiss. by apply has_key_entries.
Qed.

(** X9.  The backend that [db] does not select is never touched: with
    [db=None] no sequence of calls changes the shelf or opens it, and with
    a path no sequence of calls changes [mem_cache]. *)
Theorem other_backend_is_untouched orig_func db hash calls s :
  (db = None ->
   shelf (run_calls orig_func db hash calls s) = shelf s
   /\ shelf_log (run_calls orig_func db hash calls s) = shelf_log s)
  /\ (is_Some db -> mem_cache (run_calls orig_func db hash calls s) = mem_cache s).
Proof.
  revert s. induction calls as [|[args kwargs] calls IH]; intros s; simpl; [done|].
  destruct (decorated_other_backend orig_func db hash args kwargs s) as [Hn Hp].
  destruct (IH (decorated orig_func db hash args kwargs s).2) as [Hn' Hp'].
  split.
  - intros Hdb. destruct (Hn Hdb) as [<- <-]. by apply Hn'.
  - intros Hdb. rewrite <- (Hp Hdb). by apply Hp'.
Qed.

Lemma decorated_total_bounds orig_func db hash args kwargs s :
  stats_total s <= stats_total (decorated orig_func db hash args kwargs s).2
                <= stats_total s + 1.
Proof.
  pattern (decorated orig_func db hash args kwargs s).
  apply decorated_cases; unfold stats_total; intros; simpl; try lia.
  match goal with H : cache_setitem _ _ _ _ = _ |- _ =>
    apply setitem_frame in H as (-> & -> & _) end.
  simpl. lia.
Qed.

Lemma decorated_total_exact orig_func db hash args kwargs s :
  db_opens db -> derives_key orig_func hash (args, kwargs) ->
  stats_total (decorated orig_func db hash args kwargs s).2 = stats_total s + 1.
Proof.
  intros Ho (p & key & Hb & Hd). simpl in Hb.
  pattern (decorated orig_func db hash args kwargs s).
  apply decorated_cases; unfold stats_total.
  - congruence.
  - intros p' x Hb' Hd'. congruence.
  - intros p' key' path x _ _ -> Hx. simpl in Ho. congruence.
  - intros. simpl. lia.
  - intros. simpl. lia.
  - intros p' key' v w o s_set _ _ _ _ _ Hset.
    apply setitem_frame in Hset as (Hc & Hm & _). simpl in *. lia.
Qed.

Lemma decorated_size orig_func db hash args kwargs s :
  Z.of_nat (size (mem_cache (decorated orig_func db hash args kwargs s).2))
  - Z.of_nat (size (mem_cache s))
  <= stats_computed (decorated orig_func db hash args kwargs s).2 - stats_computed s.
Proof.
  pattern (decorated orig_func db hash args kwargs s).
  apply decorated_cases; try (intros; simpl; lia).
  intros p key v w o s_set _ _ _ Hmiss _ Hset.
  pose proof (setitem_frame _ _ _ _ _ _ Hset) as (_ & Hc & _).
  eapply setitem_new_key in Hset as (_ & _ & Hsize & _).
  - simpl in *. lia.
  - rewrite <- Hmiss. by apply has_key_entries.
Qed.

(** X10.  Over a sequence of calls the two counters together go up by at
    most one per call, and by exactly one per call when the store opens and
    every call binds its arguments and derives a key: the sum of [cached]
    and [computed] then counts the calls. *)
Theorem counters_count_the_calls orig_func db hash calls s :
  db_opens db ->
  Forall (derives_key orig_func hash) calls ->
  stats_total (run_calls orig_func db hash calls s)
  = stats_total s + Z.of_nat (length calls)
  /\ forall calls',
      stats_total s <= stats_total (run_calls orig_func db hash calls' s)
                    <= stats_total s + Z.of_nat (length calls').
Proof.
  intros Ho Hcalls. split.
  - revert s. induction Hcalls as [|[args kwargs] calls Hc _ IH]; intros s.
    + simpl. lia.
    + cbn [run_calls length]. rewrite IH, decorated_total_exact by done. lia.
  - clear. intros calls'. revert s.
    induction calls' as [|[args kwargs] calls' IH]; intros s.
    + simpl. lia.
    + cbn [run_calls length].
      pose proof (decorated_total_bounds orig_func db hash args kwargs s).
      specialize (IH (decorated orig_func db hash args kwargs s).2). lia.
Qed.

(** X11.  The in-memory dict never grows faster than [computed]: over any
    sequence of calls it gains at most as many entries as [computed] went
    up, so a freshly decorated function never holds more entries than it
    counts computations. *)
Theorem cache_grows_with_computed orig_func db hash calls :
  (forall s,
      Z.of_nat (size (mem_cache (run_calls orig_func db hash calls s)))
      - Z.of_nat (size (mem_cache s))
      <= stats_computed (run_calls orig_func db hash calls s) - stats_computed s)
  /\ forall store log w,
      Z.of_nat (size (mem_cache (run_calls orig_func db hash calls (fresh store log w))))
      <= stats_computed (run_calls orig_func db hash calls (fresh store log w)).
Proof.
  assert (forall s,
      Z.of_nat (size (mem_cache (run_calls orig_func db hash calls s)))
      - Z.of_nat (size (mem_cache s))
      <= stats_computed (run_calls orig_func db hash calls s) - stats_computed s) as H.
  { induction calls as [|[args kwargs] calls IH]; intros s.
    - simpl. lia.
    - cbn [run_calls].
      pose proof (decorated_size orig_func db hash args kwargs s).
      specialize (IH (decorated orig_func db hash args kwargs s).2). lia. }
  split; [done|]. intros store log w.
  specialize (H (fresh store log w)). simpl in H.
  rewrite map_size_empty in H. simpl in H. lia.
Qed.

(** *** Keys *)

(** X12.  The cache trusts the key: once a call has returned, a call with
    other parameters that derive the same key is a hit; it returns the
    value of the first call and does not invoke the wrapped function. *)
Theorem colliding_parameters_share_an_entry
    orig_func db hash args1 kwargs1 args2 kwargs2 p1 p2 key r s s1 :
  fn_bind orig_func args1 kwargs1 = Ret p1 ->
  derive (fn_name orig_func) hash p1 = Ret key ->
  fn_bind orig_func args2 kwargs2 = Ret p2 ->
  derive (fn_name orig_func) hash p2 = Ret key ->
  decorated orig_func db hash args1 kwargs1 s = (Ret r, s1) ->
  exists s2,
    decorated orig_func db hash args2 kwargs2 s1 = (Ret r, s2)
    /\ stats_cached s2 = stats_cached s1 + 1
    /\ stats_computed s2 = stats_computed s1
    /\ mem_cache s2 = mem_cache s1
    /\ shelf s2 = shelf s1
    /\ world s2 = world s1.
Proof.
  intros Hb1 Hd1 Hb2 Hd2 H.
  apply decorated_ret_inv in H as (p & key' & Hb & Hd & Ho & Hhas & Hget).
  assert (p = p1) as -> by congruence. assert (key' = key) as -> by congruence.
  rewrite (decorated_hit _ _ _ _ _ p2 key) by done. rewrite Hget.
  eexists. split; [reflexivity|]. done.
Qed.

(** X13.  Under the default hash, two functions whose names differ never
    derive the same key, whatever their parameters: the hash starts with
    a bracket, which no name holds. *)
Theorem default_keys_tell_functions_apart (f g : pyfunc) p1 p2 :
  PyStr.contains_char "[" (fn_name f) = false ->
  PyStr.contains_char "[" (fn_name g) = false ->
  fn_name f <> fn_name g ->
  derive (fn_name f) (cache_hash HashOmitted) p1
  <> derive (fn_name g) (cache_hash HashOmitted) p2.
Proof.
  intros Hf Hg Hne. unfold derive.
  change (cache_hash HashOmitted p1) with (default_hash repr (X := X) p1).
  change (cache_hash HashOmitted p2) with (default_hash repr (X := X) p2).
  unfold default_hash, str_list. intros [= Heq]. apply Hne.
  rewrite !string_app_assoc in Heq.
  apply (app_inj_length _ _ _ _) in Heq; [done|].
  apply (f_equal (PyStr.find_char "[")) in Heq.
  rewrite (find_char_app _ (fn_name f)), (find_char_app _ (fn_name g)) in Heq by done.
  assert (forall z, PyStr.find_char "[" ("__" +:+ ("[" +:+ z)) = 2%nat) as Hfind by done.
  rewrite !Hfind in Heq. lia.
Qed.

Lemma decorated_new_key orig_func db hash args kwargs s k :
  (is_Some (mem_cache (decorated orig_func db hash args kwargs s).2 !! k)
   /\ mem_cache s !! k = None)
  \/ (is_Some (shelf (decorated orig_func db hash args kwargs s).2 !! k)
      /\ shelf s !! k = None) ->
  PyStr.startswith k (fn_name orig_func +:+ "__") = true.
Proof.
  intros Hnew.
  destruct (fn_bind orig_func args kwargs) as [p|x] eqn:Hb.
  - destruct (derive (fn_name orig_func) hash p) as [key|x] eqn:Hd.
    + destruct (decide (key = k)) as [<-|Hk]; [by eapply derive_prefix|].
      exfalso.
      destruct (decorated_frame orig_func db hash args kwargs s k) as [Hm Hs].
      { intros p' Hb'. rewrite Hb in Hb'. injection Hb' as <-. congruence. }
      rewrite Hm, Hs in Hnew.
      destruct Hnew as [[[? H1] H2]|[[? H1] H2]]; congruence.
    + exfalso.
      destruct (decorated_frame orig_func db hash args kwargs s k) as [Hm Hs].
      { intros p' Hb'. rewrite Hb in Hb'. injection Hb' as <-. congruence. }
      rewrite Hm, Hs in Hnew.
      destruct Hnew as [[[? H1] H2]|[[? H1] H2]]; congruence.
  - exfalso.
    destruct (decorated_frame orig_func db hash args kwargs s k) as [Hm Hs].
    { intros p' Hb'. congruence. }
    rewrite Hm, Hs in Hnew.
    destruct Hnew as [[[? H1] H2]|[[? H1] H2]]; congruence.
Qed.

(** X14.  Every entry that a sequence of calls adds, to the in-memory
    dict or to the shelf, is under a key that starts with the name of the
    wrapped function and [__]. *)
Theorem added_keys_carry_the_name orig_func db hash calls s k :
  (is_Some (mem_cache (run_calls orig_func db hash calls s) !! k)
   /\ mem_cache s !! k = None)
  \/ (is_Some (shelf (run_calls orig_func db hash calls s) !! k)
      /\ shelf s !! k = None) ->
  PyStr.startswith k (fn_name orig_func +:+ "__") = true.
Proof.
  revert s. induction calls as [|[args kwargs] calls IH]; intros s Hnew.
  - simpl in Hnew. destruct Hnew as [[[? H1] H2]|[[? H1] H2]]; congruence.
  - cbn [run_calls] in Hnew.
    set (s1 := (decorated orig_func db hash args kwargs s).2) in *.
    destruct Hnew as [[Hin Hout]|[Hin Hout]].
    + destruct (mem_cache s1 !! k) as [v|] eqn:H1.
      * apply (decorated_new_key orig_func db hash args kwargs s k).
        left. fold s1. rewrite H1. by eauto.
      * apply (IH s1). left. done.
    + destruct (shelf s1 !! k) as [v|] eqn:H1.
      * apply (decorated_new_key orig_func db hash args kwargs s k).
        right. fold s1. rewrite H1. by eauto.
      * apply (IH s1). right. done.
Qed.

End ControllerFacts.

(** ** The docstring of [cache], and the properties at work *)

Section Scenarios.

Import Example.

(** The three calls of the docstring: [x(1)], [x(2)], [x(1)]. *)
Example docstring_x_1 :
  let call := cached_x [PyInt 1] [] s0 in
  call.1 = Ret (PyInt 2)
  /\ stats_info call.2 = (0, 1, Some "<lambda>__[('a', 1), ('b', 2)]").
Proof. by vm_compute. Qed.

Example docstring_x_2 :
  let call := cached_x [PyInt 2] [] (cached_x [PyInt 1] [] s0).2 in
  call.1 = Ret (PyInt 4)
  /\ stats_info call.2 = (0, 2, Some "<lambda>__[('a', 2), ('b', 2)]").
Proof. by vm_compute. Qed.

Example docstring_x_1_again :
  let call :=
    cached_x [PyInt 1] [] (cached_x [PyInt 2] [] (cached_x [PyInt 1] [] s0).2).2 in
  call.1 = Ret (PyInt 2)
  /\ stats_info call.2 = (1, 2, Some "<lambda>__[('a', 1), ('b', 2)]").
Proof. by vm_compute. Qed.

(** The default hash sorts by name, whatever the order of the dict. *)
Example default_hash_sorts :
  default_hash py_repr (X := pyexn) [("b", PyInt 2); ("c", PyInt (-3)); ("a", PyInt 1)]
  = Ret "[('a', 1), ('b', 2), ('c', -3)]".
Proof. reflexivity. Qed.

(** A read of a key that the backend does not hold is a [KeyError]. *)
Example getitem_missing :
  (cache_getitem py_loads MemCache "f__" s0).1 = Raise (MissingEntry (X := pyexn) "f__").
Proof. by vm_compute. Qed.

(** *** C2: the same items in another order, and [count(a=1, b=2)]
    against [count(b=2, a=1)] *)

Example default_key_same_for_both_orders :
  derive "f" (py_hash HashOmitted) [("b", PyInt 2); ("a", PyInt 1)]
  = derive "f" (py_hash HashOmitted) [("a", PyInt 1); ("b", PyInt 2)].
Proof. reflexivity. Qed.

Lemma default_key_order_independent_witness :
  derive "f" (py_hash HashOmitted) [("a", PyInt 1); ("b", PyInt 2)]
  = derive "f" (py_hash HashOmitted) [("a", PyInt 1); ("b", PyInt 2)].
Proof.
  apply (default_key_order_independent py_repr f
           [PyInt 1] [("b", PyInt 2)] [] [("b", PyInt 2); ("a", PyInt 1)]
           [("a", PyInt 1); ("b", PyInt 2)] [("a", PyInt 1); ("b", PyInt 2)]).
  - reflexivity.
  - reflexivity.
  - apply NoDup_cons_2; [|apply NoDup_singleton].
    rewrite list_elem_of_singleton. discriminate.
  - apply NoDup_cons_2; [|apply NoDup_singleton].
    rewrite list_elem_of_singleton. discriminate.
  - intros a. reflexivity.
Defined.

Lemma equal_mappings_distinct_keys :
  let p1 := [("kw", PyDict [("a", PyInt 1); ("b", PyInt 2)])] in
  let p2 := [("kw", PyDict [("b", PyInt 2); ("a", PyInt 1)])] in
  fn_bind count [] [("a", PyInt 1); ("b", PyInt 2)] = Ret p1
  /\ fn_bind count [] [("b", PyInt 2); ("a", PyInt 1)] = Ret p2
  /\ params_eq p1 p2 = true
  /\ derive "count" (py_hash HashOmitted) p1 = Ret "count__[('kw', {'a': 1, 'b': 2})]"
  /\ derive "count" (py_hash HashOmitted) p2 = Ret "count__[('kw', {'b': 2, 'a': 1})]"
  /\ derive (fn_name count) (py_hash HashOmitted) p1
     <> derive (fn_name count) (py_hash HashOmitted) p2.
Proof. vm_compute. split_and!; done. Qed.

(** *** C7: [f] and [g] on the same parameters *)

Lemma derive_namespaced_witness :
  "f__[('a', 1), ('b', 2)]" <> "g__[('a', 1), ('b', 2)]"
  /\ exists h, py_hash HashOmitted [("a", PyInt 1); ("b", PyInt 2)] = Ret h
       /\ "f__[('a', 1), ('b', 2)]" = ("f" +:+ "__") +:+ h
       /\ "g__[('a', 1), ('b', 2)]" = ("g" +:+ "__") +:+ h.
Proof.
  apply (derive_namespaced f g (py_hash HashOmitted) [("a", PyInt 1); ("b", PyInt 2)]).
  - discriminate.
  - reflexivity.
  - reflexivity.
Defined.

(** *** C8: a hash that raises *)

Lemma hash_failure_mutates_nothing_witness :
  py_decorated x (Some "x.db") hash_mod100 [PyFunction "<lambda>"] [] s0
  = (Raise (HashError "TypeError"), s0).
Proof.
  apply (hash_failure_mutates_nothing py_dumps py_loads py_open_error
           x (Some "x.db") hash_mod100 [PyFunction "<lambda>"] []
           [("a", PyFunction "<lambda>"); ("b", PyInt 2)]).
  - reflexivity.
  - reflexivity.
Defined.

(** *** C3 and C10: [inv(0)] on a shelf *)

Lemma computation_failure_releases_backend_witness :
  exists s',
    py_decorated inv (Some "inv.db") (py_hash HashOmitted) [PyInt 0] [] s0
    = (Raise (ComputationError "ZeroDivisionError"), s')
    /\ shelf_log s' = [EvOpen "inv.db"; EvClose "inv.db"]
    /\ mem_cache s' = ∅
    /\ shelf s' = ∅.
Proof.
  apply (computation_failure_releases_backend py_dumps py_loads py_open_error
           inv (Some "inv.db") (py_hash HashOmitted) [PyInt 0] []
           [("a", PyInt 0)] "inv__[('a', 0)]" "ZeroDivisionError" [] s0).
  - reflexivity.
  - reflexivity.
  - reflexivity.
  - reflexivity.
  - reflexivity.
Defined.

Lemma failed_computation_is_counted_witness :
  exists s',
    py_decorated inv None (py_hash HashOmitted) [PyInt 0] [] s0
    = (Raise (ComputationError "ZeroDivisionError"), s')
    /\ stats_computed s' = 0 + 1
    /\ stats_cached s' = 0
    /\ info_last_hash s' = Some "inv__[('a', 0)]".
Proof.
  apply (failed_computation_is_counted py_dumps py_loads py_open_error
           inv None (py_hash HashOmitted) [PyInt 0] []
           [("a", PyInt 0)] "inv__[('a', 0)]" "ZeroDivisionError" [] s0).
  - reflexivity.
  - reflexivity.
  - exact I.
  - reflexivity.
  - reflexivity.
Defined.

(** *** C1: [x(1)] and then [x(b=2, a=1)]; results that a shelf does
    not give back *)

Lemma miss_then_hit_witness :
  exists s1 s2,
    py_decorated x None (py_hash HashOmitted) [PyInt 1] [] s0 = (Ret (PyInt 2), s1)
    /\ stats_computed s1 = stats_computed s0 + 1
    /\ stats_cached s1 = stats_cached s0
    /\ world s1 = []
    /\ (None = None :> option string -> PyInt 2 = PyInt 2)
    /\ py_decorated x None (py_hash HashOmitted) [] [("b", PyInt 2); ("a", PyInt 1)] s1
       = (Ret (PyInt 2), s2)
    /\ stats_cached s2 = stats_cached s1 + 1
    /\ stats_computed s2 = stats_computed s1
    /\ world s2 = [].
Proof.
  apply (miss_then_hit py_dumps py_loads py_open_error
           x None (py_hash HashOmitted) [PyInt 1] [] [] [("b", PyInt 2); ("a", PyInt 1)]
           [("a", PyInt 1); ("b", PyInt 2)] "<lambda>__[('a', 1), ('b', 2)]"
           (PyInt 2) [] (PyInt 2) s0).
  - reflexivity.
  - reflexivity.
  - reflexivity.
  - exact I.
  - reflexivity.
  - reflexivity.
  - reflexivity.
Defined.

(** On a shelf, the first call for a new key returns the [Job] as the
    shelf reads it back, without its [scratch], and not the [Job] that
    the computation returned; and a result that cannot be pickled is not
    returned at all, so that the repeated call is a miss again. *)
Lemma first_call_returns_reread_value :
  let job := py_cache make_job (Some "jobs.db") HashOmitted in
  let adder := py_cache make_adder (Some "adders.db") HashOmitted in
  has_key (Shelf "jobs.db") "make_job__[('a', 1)]" s0 = false
  /\ fn_call make_job [("a", PyInt 1)] (world s0) = (Ret (PyJob 1 (Some 2)), world s0)
  /\ (job [PyInt 1] [] s0).1 = Ret (PyJob 1 None)
  /\ (job [PyInt 1] [] s0).1 <> Ret (PyJob 1 (Some 2))
  /\ has_key (Shelf "adders.db") "make_adder__[('a', 1)]" s0 = false
  /\ fn_call make_adder [("a", PyInt 1)] (world s0)
     = (Ret (PyFunction "make_adder.<locals>.<lambda>"), world s0)
  /\ (adder [PyInt 1] [] s0).1 = Raise (StoreError "PicklingError")
  /\ stats_info (adder [PyInt 1] [] (adder [PyInt 1] [] s0).2).2
     = (0, 2, Some "make_adder__[('a', 1)]").
Proof. vm_compute. split_and!; done. Qed.

(** *** C4: the [Job] comes back from the shelf *)

Lemma returned_value_is_reread_witness :
  let s' := (py_decorated make_job (Some "jobs.db") (py_hash HashOmitted) [PyInt 1] [] s0).2 in
  exists p key,
    fn_bind make_job [PyInt 1] [] = Ret p
    /\ derive (fn_name make_job) (py_hash HashOmitted) p = Ret key
    /\ (cache_getitem py_loads (cache_of (Some "jobs.db")) key s').1 = Ret (PyJob 1 None)
    /\ (has_key (cache_of (Some "jobs.db")) key s0 = false ->
        exists v s_computed s_set,
          fn_call make_job p (world s0) = (Ret v, world s_computed)
          /\ cache_setitem py_dumps (cache_of (Some "jobs.db")) key v s_computed
             = (Ret tt, s_set)
          /\ cache_getitem py_loads (cache_of (Some "jobs.db")) key s_set
             = (Ret (PyJob 1 None), s_set)).
Proof.
  apply (returned_value_is_reread py_dumps py_loads py_open_error
           make_job (Some "jobs.db") (py_hash HashOmitted) [PyInt 1] [] s0).
  by vm_compute.
Defined.

(** *** C5: lines 56-60 on a miss *)

Lemma final_read_finds_key_witness :
  let s1 := (lookup_or_compute py_dumps x MemCache "x__1" [("a", PyInt 1); ("b", PyInt 2)] s0).2 in
  has_key MemCache "x__1" s1 = true
  /\ (forall k, (cache_getitem py_loads MemCache "x__1" s1).1 <> Raise (MissingEntry k))
  /\ (forall db hash args kwargs s k,
        (py_decorated x db hash args kwargs s).1 <> Raise (MissingEntry k)).
Proof.
  apply (final_read_finds_key py_dumps py_loads py_open_error
           x MemCache "x__1" [("a", PyInt 1); ("b", PyInt 2)] s0).
  by vm_compute.
Defined.

(** *** C6: [x(1)]; calls that stop before the lookup *)

Lemma stats_and_info_once_per_call_witness :
  let out := py_decorated x None (py_hash HashOmitted) [PyInt 1] [] s0 in
  (stats_cached s0 <= stats_cached out.2 /\ stats_computed s0 <= stats_computed out.2)
  /\ info_last_hash out.2 = Some "<lambda>__[('a', 1), ('b', 2)]"
  /\ ((stats_cached out.2 = stats_cached s0 + 1
       /\ stats_computed out.2 = stats_computed s0)
      \/ (stats_cached out.2 = stats_cached s0
          /\ stats_computed out.2 = stats_computed s0 + 1)).
Proof.
  intros out.
  destruct (stats_and_info_once_per_call py_dumps py_loads py_open_error
              x None (py_hash HashOmitted) [PyInt 1] [] s0 out.1 out.2)
    as (Hmono & _ & Hkey).
  { by vm_compute. }
  destruct (Hkey [("a", PyInt 1); ("b", PyInt 2)] "<lambda>__[('a', 1), ('b', 2)]"
              eq_refl eq_refl) as (Hinfo & _ & Hcount).
  split; [exact Hmono|]. split; [exact Hinfo|]. apply Hcount. exact I.
Defined.

(** A call whose hash raises counts nothing and leaves [last_hash] as it
    was; a call whose store cannot be opened overwrites [last_hash] and
    counts nothing. *)
Lemma raising_hash_is_not_counted :
  let out := py_cache x None (HashCallable hash_mod100) [PyFunction "<lambda>"] [] s0 in
  let out' := py_cache x (Some "/proc/x.db") HashOmitted [PyInt 1] [] s0 in
  out.1 = Raise (HashError "TypeError")
  /\ ~ ((stats_cached out.2 = stats_cached s0 + 1
         /\ stats_computed out.2 = stats_computed s0)
        \/ (stats_cached out.2 = stats_cached s0
            /\ stats_computed out.2 = stats_computed s0 + 1))
  /\ info_last_hash out.2 = None
  /\ out'.1 = Raise (OpenError "dbm.error")
  /\ ~ ((stats_cached out'.2 = stats_cached s0 + 1
         /\ stats_computed out'.2 = stats_computed s0)
        \/ (stats_cached out'.2 = stats_cached s0
            /\ stats_computed out'.2 = stats_computed s0 + 1))
  /\ info_last_hash out'.2 = Some "<lambda>__[('a', 1), ('b', 2)]".
Proof. vm_compute. split_and!; try done; intros [[? ?]|[? ?]]; done. Qed.

(** *** C9: [hash=None] *)

Lemma degenerate_hash_single_entry_witness :
  let s1 := (py_cache make_job (Some "jobs.db") HashNone [PyInt 1] [] s0).2 in
  let key := (fn_name make_job +:+ "__") +:+ "" in
  let later := run_calls py_dumps py_loads py_open_error make_job (Some "jobs.db")
                 (py_hash HashNone) in
  (forall p, derive (fn_name make_job) (py_hash HashNone) p = Ret key)
  /\ (forall calls k, k <> key ->
        mem_cache (later calls s1) !! k = mem_cache s0 !! k
        /\ shelf (later calls s1) !! k = shelf s0 !! k)
  /\ (forall calls args kwargs p,
        fn_bind make_job args kwargs = Ret p ->
        exists s',
          py_cache make_job (Some "jobs.db") HashNone args kwargs (later calls s1)
          = (Ret (PyJob 1 None), s')
          /\ stats_cached s' = stats_cached (later calls s1) + 1
          /\ stats_computed s' = stats_computed (later calls s1)
          /\ world s' = world (later calls s1))
  /\ (Some "jobs.db" = None -> has_key MemCache key s0 = false ->
      exists p0 v,
        fn_bind make_job [PyInt 1] [] = Ret p0
        /\ fn_call make_job p0 (world s0) = (Ret v, world s1)
        /\ PyJob 1 None = v).
Proof.
  apply (degenerate_hash_single_entry py_repr py_dumps py_loads py_open_error
           make_job (Some "jobs.db") [PyInt 1] [] (PyJob 1 None) s0).
  by vm_compute.
Defined.

(** With [hash=None] on a shelf, the later call [make_job(5)] is a hit
    that returns the [Job] as the shelf reads it back, not the [Job] that
    the first call computed; and after a first call whose result cannot
    be pickled, the later call is a miss. *)
Lemma later_call_returns_reread_value :
  let job := py_cache make_job (Some "jobs.db") HashNone in
  let adder := py_cache make_adder (Some "adders.db") HashNone in
  fn_call make_job [("a", PyInt 1)] (world s0) = (Ret (PyJob 1 (Some 2)), world s0)
  /\ (job [PyInt 5] [] (job [PyInt 1] [] s0).2).1 = Ret (PyJob 1 None)
  /\ stats_info (job [PyInt 5] [] (job [PyInt 1] [] s0).2).2 = (1, 1, Some "make_job__")
  /\ (job [PyInt 5] [] (job [PyInt 1] [] s0).2).1 <> Ret (PyJob 1 (Some 2))
  /\ fn_call make_adder [("a", PyInt 1)] (world s0)
     = (Ret (PyFunction "make_adder.<locals>.<lambda>"), world s0)
  /\ (adder [PyInt 1] [] s0).1 = Raise (StoreError "PicklingError")
  /\ stats_info (adder [PyInt 5] [] (adder [PyInt 1] [] s0).2).2
     = (0, 2, Some "make_adder__").
Proof. vm_compute. split_and!; done. Qed.

End Scenarios.


(** ** The other paths of [cache] and [decorated] at work *)

Section MoreScenarios.

Import Example.

(** [x()] *)
Lemma bind_failure_mutates_nothing_witness :
  py_decorated x None (py_hash HashOmitted) [] [] s0 = (Raise (BindError "TypeError"), s0).
Proof.
  apply (bind_failure_mutates_nothing py_dumps py_loads py_open_error
           x None (py_hash HashOmitted) [] [] "TypeError" s0).
  reflexivity.
Defined.

(** [x(1)] on a store that cannot be opened *)
Lemma open_failure_computes_nothing_witness :
  exists s',
    py_decorated x (Some "/proc/x.db") (py_hash HashOmitted) [PyInt 1] [] s0
    = (Raise (OpenError "dbm.error"), s')
    /\ info_last_hash s' = Some "<lambda>__[('a', 1), ('b', 2)]"
    /\ stats_cached s' = stats_cached s0
    /\ stats_computed s' = stats_computed s0
    /\ mem_cache s' = mem_cache s0
    /\ shelf s' = shelf s0
    /\ shelf_log s' = shelf_log s0
    /\ world s' = world s0.
Proof.
  apply (open_failure_computes_nothing py_dumps py_loads py_open_error
           x "/proc/x.db" (py_hash HashOmitted) [PyInt 1] []
           [("a", PyInt 1); ("b", PyInt 2)]).
  - reflexivity.
  - reflexivity.
  - reflexivity.
Defined.

(** [report(1)] twice: the second call prints nothing *)
Lemma hit_reads_and_computes_nothing_witness :
  let s1 := (py_decorated report None (py_hash HashOmitted) [PyInt 1] [] s0).2 in
  world s1 = ["report"]
  /\ exists s',
      py_decorated report None (py_hash HashOmitted) [PyInt 1] [] s1
      = ((cache_getitem py_loads (cache_of None) "report__[('a', 1)]" s1).1, s')
      /\ stats_cached s' = stats_cached s1 + 1
      /\ stats_computed s' = stats_computed s1
      /\ mem_cache s' = mem_cache s1
      /\ shelf s' = shelf s1
      /\ world s' = world s1
      /\ shelf_log s' = (shelf_log s1 ++ handle_events None)%list.
Proof.
  intros s1. split; [reflexivity|].
  apply (hit_reads_and_computes_nothing py_dumps py_loads py_open_error
           report None (py_hash HashOmitted) [PyInt 1] [] [("a", PyInt 1)]).
  - reflexivity.
  - reflexivity.
  - exact I.
  - by vm_compute.
Defined.

(** The shelf holds a [Job] that this process cannot unpickle. *)
Lemma unreadable_entry_is_kept_witness :
  let s1 := (py_decorated make_job (Some "jobs.db") (py_hash HashOmitted) [PyInt 1] [] s0).2 in
  exists s',
    decorated py_dumps py_loads_no_job py_open_error
      make_job (Some "jobs.db") (py_hash HashOmitted) [PyInt 1] [] s1
    = (Raise (LoadError "AttributeError"), s')
    /\ stats_cached s' = stats_cached s1 + 1
    /\ stats_computed s' = stats_computed s1
    /\ shelf s' = shelf s1
    /\ world s' = world s1
    /\ shelf_log s' = (shelf_log s1 ++ [EvOpen "jobs.db"; EvClose "jobs.db"])%list.
Proof.
  intros s1.
  apply (unreadable_entry_is_kept py_dumps py_loads_no_job py_open_error
           make_job "jobs.db" (py_hash HashOmitted) [PyInt 1] []
           [("a", PyInt 1)] "make_job__[('a', 1)]" (PickledJob 1)).
  - reflexivity.
  - reflexivity.
  - reflexivity.
  - by vm_compute.
  - reflexivity.
Defined.

(** [make_adder(1)] on a shelf *)
Lemma unstorable_result_is_not_cached_witness :
  exists s',
    py_decorated make_adder (Some "adders.db") (py_hash HashOmitted) [PyInt 1] [] s0
    = (Raise (StoreError "PicklingError"), s')
    /\ stats_computed s' = stats_computed s0 + 1
    /\ stats_cached s' = stats_cached s0
    /\ world s' = []
    /\ shelf s' = shelf s0
    /\ has_key (Shelf "adders.db") "make_adder__[('a', 1)]" s' = false
    /\ shelf_log s' = (shelf_log s0 ++ [EvOpen "adders.db"; EvClose "adders.db"])%list.
Proof.
  apply (unstorable_result_is_not_cached py_dumps py_loads py_open_error
           make_adder "adders.db" (py_hash HashOmitted) [PyInt 1] []
           [("a", PyInt 1)] "make_adder__[('a', 1)]"
           (PyFunction "make_adder.<locals>.<lambda>") []).
  - reflexivity.
  - reflexivity.
  - reflexivity.
  - by vm_compute.
  - reflexivity.
  - reflexivity.
Defined.

(** [inv(5)], [inv(0)], [inv()] and [inv(5)] on a shelf *)
Lemma no_handle_left_open_witness :
  balanced
    (shelf_log
       (run_calls py_dumps py_loads py_open_error inv (Some "inv.db") (py_hash HashOmitted)
          [([PyInt 5], []); ([PyInt 0], []); ([], []); ([PyInt 5], [])] s0))
  = true.
Proof.
  apply (no_handle_left_open py_dumps py_loads py_open_error
           inv (Some "inv.db") (py_hash HashOmitted)).
  reflexivity.
Defined.

(** [x(1)], [x(2)], [x(1)] *)
Lemma counters_count_the_calls_witness :
  let calls := [([PyInt 1], []); ([PyInt 2], []); ([PyInt 1], [])] in
  stats_total (run_calls py_dumps py_loads py_open_error x None (py_hash HashOmitted) calls s0)
  = stats_total s0 + 3.
Proof.
  intros calls.
  apply (counters_count_the_calls py_dumps py_loads py_open_error
           x None (py_hash HashOmitted) calls s0).
  - exact I.
  - repeat constructor; eexists _, _; split; reflexivity.
Defined.

(** [x(1)] and then [x(101)], under [hash=lambda params: str(params["a"] % 100)] *)
Lemma colliding_parameters_share_an_entry_witness :
  let s1 := (py_decorated x None hash_mod100 [PyInt 1] [] s0).2 in
  fn_call x [("a", PyInt 101); ("b", PyInt 2)] [] = (Ret (PyInt 202), [])
  /\ exists s2,
      py_decorated x None hash_mod100 [PyInt 101] [] s1 = (Ret (PyInt 2), s2)
      /\ stats_cached s2 = stats_cached s1 + 1
      /\ stats_computed s2 = stats_computed s1
      /\ mem_cache s2 = mem_cache s1
      /\ shelf s2 = shelf s1
      /\ world s2 = world s1.
Proof.
  intros s1. split; [reflexivity|].
  apply (colliding_parameters_share_an_entry py_dumps py_loads py_open_error
           x None hash_mod100 [PyInt 1] [] [PyInt 101] []
           [("a", PyInt 1); ("b", PyInt 2)] [("a", PyInt 101); ("b", PyInt 2)]
           "<lambda>__1" (PyInt 2) s0).
  - reflexivity.
  - reflexivity.
  - reflexivity.
  - reflexivity.
  - by vm_compute.
Defined.

(** [f(1)] against [g(b=3, a=4)] *)
Lemma default_keys_tell_functions_apart_witness :
  derive "f" (py_hash HashOmitted) [("a", PyInt 1); ("b", PyInt 2)]
  <> derive "g" (py_hash HashOmitted) [("a", PyInt 4); ("b", PyInt 3)].
Proof.
  apply (default_keys_tell_functions_apart py_repr f g).
  - reflexivity.
  - reflexivity.
  - discriminate.
Defined.

(** The entry that [x(1)] and [x(2)] leave for [x(1)] *)
Lemma added_keys_carry_the_name_witness :
  PyStr.startswith "<lambda>__[('a', 1), ('b', 2)]" ("<lambda>" +:+ "__") = true.
Proof.
  apply (added_keys_carry_the_name py_dumps py_loads py_open_error
           x None (py_hash HashOmitted) [([PyInt 1], []); ([PyInt 2], [])] s0).
  left. split; [|reflexivity]. vm_compute. by eexists.
Defined.

End MoreScenarios.
